(** * Authentication core of the FastAPI template: OTP login, JWT tokens,
      route protection.

    Shallow embedding of

    - [app/models/base_users.py], [app/models/users.py]      (the [users] table),
    - [app/api/v1/user/schema.py], [app/models/schema.py]    (pydantic schemas),
    - [app/api/v1/user/operations.py]                        (operations),
    - [app/services/oauth2.py]                               ([protected_route]),
    - [app/api/v1/auth/routes.py]                            ([get_token],
      [refresh_access_token], [logout_user]),
    - [app/api/v1/user/routes.py]                            ([register_or_login_user],
      [add_user_profile], [update_user_profile]),
    - [app/models/roles.py], [app/api/v1/role/operations.py],
      [app/controllers/dependencies.py]                      (role-gated routes),
    - [app/crud/base.py]                                     (generic CRUD).

    Conventions.  A [datetime] is a number of whole seconds in [Z]
    ([get_current_timestamp] strips the microseconds and the TIMESTAMP
    columns hold seconds); a [timedelta] is a number of seconds.  A request
    reads the clock once: the value [now] is an argument of every route.
    The database session is the list of rows of the [users] table, threaded
    through a state-and-exception monad; a [commit] is the new list. *)

From Stdlib Require Import ZArith List String Ascii Bool Lia DecimalString PrimFloat.
Import ListNotations.

Open Scope string_scope.
Open Scope Z_scope.

(** ** Python helpers *)

(** [str(n)] for an integer. *)
Definition str_of_int (n : Z) : string := NilZero.string_of_int (Z.to_int n).

(** [s.split("@")[0]]: the part of [s] before the first [@]. *)
Fixpoint split_at_0 (s : string) : string :=
  match s with
  | EmptyString => EmptyString
  | String c r => if Ascii.eqb c "@"%char then EmptyString else String c (split_at_0 r)
  end.

(** Truthiness of [str | None]. *)
Definition truthy (o : option string) : bool :=
  match o with
  | None => false
  | Some s => negb (s =? "")%string
  end.

(** [timedelta.seconds]: the seconds field of the normalised
    (days, seconds) pair, always in [0, 86400). *)
Definition timedelta_seconds (d : Z) : Z := d mod 86400.

(** ** Exceptions (app/controllers/exceptions.py, fastapi, the JWT package) *)

(** Classes of the JWT package's [AuthJWTException]. *)
Inductive AuthJWTError : Type :=
| InvalidHeaderError
| MissingTokenError
| JWTDecodeError
| AccessTokenRequired
| RefreshTokenRequired.

Inductive Exception : Type :=
| HTTPException (status_code : Z) (detail : string)
| NotFoundException (detail : string)
| CouldNotPerformDBOperationException (extra : string)
| CouldNotSentEmailException (detail : string)
| AuthJWTException (cls : AuthJWTError) (message : string)
| TypeError.

(** [e.__class__.__name__] *)
Definition class_name (e : Exception) : string :=
  match e with
  | HTTPException _ _ => "HTTPException"
  | NotFoundException _ => "NotFoundException"
  | CouldNotPerformDBOperationException _ => "CouldNotPerformDBOperationException"
  | CouldNotSentEmailException _ => "CouldNotSentEmailException"
  | AuthJWTException InvalidHeaderError _ => "InvalidHeaderError"
  | AuthJWTException MissingTokenError _ => "MissingTokenError"
  | AuthJWTException JWTDecodeError _ => "JWTDecodeError"
  | AuthJWTException AccessTokenRequired _ => "AccessTokenRequired"
  | AuthJWTException RefreshTokenRequired _ => "RefreshTokenRequired"
  | TypeError => "TypeError"
  end.

(** [e.message] when [hasattr(e, "message")]: only the JWT package's
    exceptions carry that attribute. *)
Definition message_attr (e : Exception) : option string :=
  match e with
  | AuthJWTException _ m => Some m
  | _ => None
  end.

(** [e.status_code] of the exceptions of app/controllers/exceptions.py. *)
Definition exc_status_code (e : Exception) : Z :=
  match e with
  | HTTPException sc _ => sc
  | NotFoundException _ => 404
  | CouldNotPerformDBOperationException _ => 500
  | CouldNotSentEmailException _ => 503
  | AuthJWTException _ _ => 422
  | TypeError => 500
  end.

(** ** Results of a call *)

Inductive Result (A : Type) : Type :=
| Return (a : A)
| Raise (e : Exception).

Arguments Return {A} a.
Arguments Raise {A} e.

(** ** The [users] table (app/models/base_users.py, app/models/users.py) *)

Module User.

(** Columns of [BaseUser] and [User] read by the authentication core. *)
Record t : Type := mk {
  id : string;
  username : string;
  email : string;
  hashed_otp : option string;
  role_id : option Z;
  last_login_at : option Z;
  otp_created_at : option Z;
  is_active : bool;
  age : option Z
}.

(** [select(cls).where(cls.id == _id)], first row or [None]. *)
Definition read (session : list t) (_id : string) : option t :=
  find (fun u => (id u =? _id)%string) session.

(** Same statement with [load_only(id, last_login_at, otp_created_at,
    is_active)]; [one_or_none] on a primary key. *)
Definition read_for_auth (session : list t) (_id : string) : option t :=
  find (fun u => (id u =? _id)%string) session.

(** [select(cls).where(cls.email == email)], first row or [None]. *)
Definition read_by_email (session : list t) (email_ : string) : option t :=
  find (fun u => (email u =? email_)%string) session.

(** The row of the object [self] after the three assignments of
    [update_for_token]. *)
Definition assign_for_token (otp : option string) (otp_created_at_ last_login_at_ : option Z)
    (self : t) : t :=
  mk (id self) (username self) (email self) otp (role_id self)
     last_login_at_ otp_created_at_ (is_active self) (age self).

(** The table after the row of the object with primary key [_id] was
    changed by [f] and committed. *)
Fixpoint commit_row (_id : string) (f : t -> t) (session : list t) : list t :=
  match session with
  | [] => []
  | u :: rest =>
      if (id u =? _id)%string then f u :: rest else u :: commit_row _id f rest
  end.

(** [self.update_for_token(session, data)].  The three columns carry no
    constraint, so the commit raises no [IntegrityError]. *)
Definition update_for_token (self : t) (otp : option string)
    (otp_created_at_ last_login_at_ : option Z) (session : list t)
  : Result unit * list t :=
  (Return tt,
   commit_row (id self) (assign_for_token otp otp_created_at_ last_login_at_) session).

(** [extra] of the exception raised when the commit of [create] fails;
    [err_cause] is [str(e.orig.args[1])] of the driver. *)
Definition creation_failed_extra (err_cause : option string) : string :=
  match err_cause with
  | Some c =>
      if (c =? "")%string then ""
      else "(User Creation Failed - Integrity Error)" ++ (" -> " ++ c)
  | None => ""
  end.

(** [User.create(session, data, role_id=...)].  [uuid4] and
    [random_number] are the values drawn by [uuid4()] and
    [generate_random_number()]; the commit fails when the primary key or
    one of the two unique columns is already taken. *)
Definition create (session : list t) (data_email : string) (role_id_ : option Z)
    (uuid4 : string) (random_number : Z) (err_cause : option string)
  : Result t * list t :=
  let username0 := split_at_0 data_email in
  let username1 :=
    if existsb (fun u => (username u =? username0)%string) session
    then username0 ++ str_of_int random_number
    else username0 in
  let user := mk uuid4 username1 data_email None role_id_ None None true None in
  if existsb (fun u => (id u =? uuid4)%string
                       || (username u =? username1)%string
                       || (email u =? data_email)%string) session
  then (Raise (CouldNotPerformDBOperationException (creation_failed_extra err_cause)),
        session)
  else (Return user, (session ++ [user])%list).

End User.

(** The session: the rows of the table, in table order. *)
Definition Session : Type := list User.t.

(** ** State and exception monad of the operations *)

Definition Op (A : Type) : Type := Session -> Result A * Session.

Definition ret {A} (a : A) : Op A := fun s => (Return a, s).

Definition raise {A} (e : Exception) : Op A := fun s => (Raise e, s).

Definition bind {A B} (c : Op A) (k : A -> Op B) : Op B :=
  fun s =>
    match c s with
    | (Return a, s') => k a s'
    | (Raise e, s') => (Raise e, s')
    end.

(** [try: c  except Exception as e: h e] *)
Definition try_except {A} (c : Op A) (h : Exception -> Op A) : Op A :=
  fun s =>
    match c s with
    | (Return a, s') => (Return a, s')
    | (Raise e, s') => h e s'
    end.

(** A pure computation that may raise. *)
Definition lift {A} (r : Result A) : Op A := fun s => (r, s).

Notation "x <- c ;; k" := (bind c (fun x => k))
  (at level 61, c at next level, right associativity).
Notation "c ;;; k" := (bind c (fun _ => k))
  (at level 61, right associativity).

(** ** Schemas (app/api/v1/user/schema.py, app/models/schema.py) *)

Module UserSchema.
Record t : Type := mk {
  id : string;
  email : string;
  username : string;
  hashed_otp : option string;
  role_id : option Z;
  otp_created_at : option Z;
  last_login_at : option Z
}.
Definition model_validate (u : User.t) : t :=
  mk (User.id u) (User.email u) (User.username u) (User.hashed_otp u)
     (User.role_id u) (User.otp_created_at u) (User.last_login_at u).
End UserSchema.

Module ReadUserForTokenResponse.
Record t : Type := mk {
  id : string;
  username : string;
  email : string;
  hashed_otp : option string;
  otp_created_at : option Z;
  last_login_at : option Z;
  age : option Z
}.
Definition model_validate (u : User.t) : t :=
  mk (User.id u) (User.username u) (User.email u) (User.hashed_otp u)
     (User.otp_created_at u) (User.last_login_at u) (User.age u).
End ReadUserForTokenResponse.

Module UserAuthResponse.
Record t : Type := mk {
  id : string;
  otp_created_at : option Z;
  last_login_at : option Z;
  is_active : bool
}.
Definition model_validate (u : User.t) : t :=
  mk (User.id u) (User.otp_created_at u) (User.last_login_at u) (User.is_active u).
End UserAuthResponse.

Module UpdateUserAfterTokenRequest.
Record t : Type := mk {
  id : string;
  otp : option string;
  otp_created_at : option Z;
  last_login_at : option Z
}.
End UpdateUserAfterTokenRequest.

Module CreateUserTokenRequest.
Record t : Type := mk {
  email : string;
  otp : string
}.
End CreateUserTokenRequest.

(** ** Operations (app/api/v1/user/operations.py) *)

Module CreateUser.
(** Reads the user of [payload.email], creating the row when absent. *)
Definition execute (payload_email : string)
    (uuid4 : string) (random_number : Z) (err_cause : option string)
  : Op UserSchema.t :=
  fun session =>
    match User.read_by_email session payload_email with
    | Some user => (Return (UserSchema.model_validate user), session)
    | None =>
        match User.create session payload_email (Some 1) uuid4 random_number err_cause with
        | (Return user, session') => (Return (UserSchema.model_validate user), session')
        | (Raise e, session') => (Raise e, session')
        end
    end.
End CreateUser.

Module UpdateUserForToken.
Definition execute (payload : UpdateUserAfterTokenRequest.t) : Op unit :=
  fun session =>
    match User.read session (UpdateUserAfterTokenRequest.id payload) with
    | None => (Raise (NotFoundException "User not found"), session)
    | Some user =>
        User.update_for_token user
          (UpdateUserAfterTokenRequest.otp payload)
          (UpdateUserAfterTokenRequest.otp_created_at payload)
          (UpdateUserAfterTokenRequest.last_login_at payload)
          session
    end.
End UpdateUserForToken.

Module ReadUserForToken.
Definition execute (email : string) : Op ReadUserForTokenResponse.t :=
  fun session =>
    match User.read_by_email session email with
    | None => (Raise (NotFoundException "User not found"), session)
    | Some user => (Return (ReadUserForTokenResponse.model_validate user), session)
    end.
End ReadUserForToken.

Module ReadUser.
Definition execute (_id : string) : Op UserSchema.t :=
  fun session =>
    match User.read session _id with
    | None => (Raise (NotFoundException "User not found"), session)
    | Some user => (Return (UserSchema.model_validate user), session)
    end.

Definition execute_for_auth (_id : string) : Op UserAuthResponse.t :=
  fun session =>
    match User.read_for_auth session _id with
    | None => (Raise (NotFoundException "User not found"), session)
    | Some user => (Return (UserAuthResponse.model_validate user), session)
    end.
End ReadUser.

(** ** Token service *)

(** Modelled from the spec: the Token Service of section 4.3.  The
    repository delegates it to the package [fastapi_another_jwt_auth],
    whose code is not under src/; only its calls ([jwt_required],
    [jwt_refresh_token_required], [get_jwt_subject],
    [create_access_token], [create_refresh_token]) and the exception
    classes the handlers test are.  A token carries its kind, its subject
    and its expiry; verification answers Missing, Malformed, Expired,
    WrongKind or the subject.  Missing is the package's
    [MissingTokenError]; Malformed is its [InvalidHeaderError] when the
    header of the token does not parse and its [JWTDecodeError] when the
    token does not decode or verify; Expired is a [JWTDecodeError] with
    the message the handlers compare against; WrongKind is its
    [AccessTokenRequired] / [RefreshTokenRequired]. *)
Module AuthJWT.

Inductive token_type : Type := access | refresh.

Definition token_type_eqb (a b : token_type) : bool :=
  match a, b with
  | access, access => true
  | refresh, refresh => true
  | _, _ => false
  end.

(** A signed token, as issued: the claims it carries. *)
Record token : Type := mk {
  type : token_type;
  sub : string;
  exp : Z
}.

(** The [AuthJWT] object of a request: what the package found in the
    [Authorization] header or the cookie.  A token that decodes is one the
    service issued: signatures are not forged. *)
Inductive t : Type :=
| missing
| undecodable (message : string)
| invalid_header (message : string)
| bearer (tok : token).

(** Verification of the presented token as a token of kind [type_token]:
    presence, header, decoding, expiry (a token is expired from the second
    [exp] on), kind, in that order. *)
Definition verify_jwt_in_request (now : Z) (type_token : token_type) (authorize : t)
  : Result unit :=
  match authorize with
  | missing => Raise (AuthJWTException MissingTokenError "Missing Authorization Header")
  | undecodable message => Raise (AuthJWTException JWTDecodeError message)
  | invalid_header message => Raise (AuthJWTException InvalidHeaderError message)
  | bearer tok =>
      if exp tok <=? now
      then Raise (AuthJWTException JWTDecodeError "Signature has expired")
      else if token_type_eqb (type tok) type_token then Return tt
      else match type_token with
           | access =>
               Raise (AuthJWTException AccessTokenRequired "Only access tokens are allowed")
           | refresh =>
               Raise (AuthJWTException RefreshTokenRequired "Only refresh tokens are allowed")
           end
  end.

Definition jwt_required (now : Z) (authorize : t) : Result unit :=
  verify_jwt_in_request now access authorize.

Definition jwt_refresh_token_required (now : Z) (authorize : t) : Result unit :=
  verify_jwt_in_request now refresh authorize.

Definition get_jwt_subject (authorize : t) : option string :=
  match authorize with
  | bearer tok => Some (sub tok)
  | _ => None
  end.

(** [expires_time] is a [timedelta], in seconds. *)
Definition create_access_token (now : Z) (subject : string) (expires_time : Z) : token :=
  mk access subject (now + expires_time).

Definition create_refresh_token (now : Z) (subject : string) (expires_time : Z) : token :=
  mk refresh subject (now + expires_time).

End AuthJWT.

(** ** Configuration (app/config.py) *)

(** The options the routes read.  app/api/v1/user/routes.py takes them
    from [settings]; app/api/v1/auth/routes.py imports the same names from
    [app.core.constants], which is not under src/: they are taken to be
    the values of [settings]. *)

Record Settings : Type := mkSettings {
  OTP_EXPIRED_TIME : Z;            (* seconds *)
  ACCESS_TOKEN_EXPIRES_IN : Z;     (* minutes *)
  REFRESH_TOKEN_EXPIRES_IN : Z;    (* minutes *)
  DEBUG_MODE : bool
}.

(** [timedelta(minutes=m)] and [timedelta(seconds=s)], in seconds. *)
Definition timedelta_minutes (m : Z) : Z := 60 * m.
Definition timedelta_of_seconds (s : Z) : Z := s.

(** ** Hashing (app/controllers/utils.py) *)

(** passlib's [CryptContext(schemes=["bcrypt"])]: [hash] draws a salt,
    [verify] checks a text against a hash. *)
Class CryptContext : Type := {
  hash : string -> string -> string;      (* salt, text *)
  verify : string -> string -> bool       (* text, hashed text *)
}.

Definition hash_text `{CryptContext} (salt text : string) : string := hash salt text.

Definition verify_hashed_text `{CryptContext} (text hashed_text : string) : bool :=
  verify text hashed_text.

(** ** What a request draws from outside the program *)

Record Env : Type := mkEnv {
  uuid4 : string;                (* [uuid4()] of [User.create] *)
  random_number : Z;             (* [generate_random_number()] *)
  err_cause : option string;     (* the driver's cause of a failed commit *)
  randbelow : nat -> Z;          (* the i-th [secrets.randbelow(9)] *)
  salt : string;                 (* the salt of [txt_context.hash] *)
  mail_ok : bool                 (* whether the mail task could be queued *)
}.

(** ** Responses *)

Inductive JSONValue : Type :=
| JStr (s : string)
| JTok (tok : AuthJWT.token).

Inductive Response : Type :=
| JSONResponse (status_code : Z) (content : list (string * JSONValue))
| CreateUserTokenResponse (username : string)
    (access_token refresh_token : AuthJWT.token) (is_new_user : bool).

(** ** Mail (app/services/mail.py) *)

Definition sent_otp_in_email (queued : bool) : Result unit :=
  if queued then Return tt else Raise (CouldNotSentEmailException "Could not sent email.").

(** ** Routes *)

Section Routes.

Context (settings : Settings) {txt_context : CryptContext}.

(** [str(e)] of an exception, as the runtime renders it. *)
Variable str : Exception -> string.

(** *** app/services/oauth2.py *)

(** [return user.id] follows the [try] block; no subject ([_id] is [None])
    selects no row. *)

Definition protected_route (now : Z) (authorize : AuthJWT.t) : Op string :=
  try_except
    (lift (AuthJWT.jwt_required now authorize) ;;;
     user <- match AuthJWT.get_jwt_subject authorize with
             | Some _id => ReadUser.execute_for_auth _id
             | None => raise (NotFoundException "User not found")
             end ;;
     if negb (UserAuthResponse.is_active user)
     then raise (NotFoundException "User no longer exist")
     else
       match UserAuthResponse.last_login_at user with
       | None => raise (NotFoundException "Log in first to access this route")
       | Some _ => ret (UserAuthResponse.id user)
       end)
    (fun e =>
       match e with
       | NotFoundException detail => raise (HTTPException 401 detail)
       | _ =>
           let error := class_name e in
           if (error =? "InvalidHeaderError")%string
           then raise (HTTPException 401 "Invalid Token. Should be a 'Bearer <token>'")
           else if (error =? "MissingTokenError")%string
           then raise (HTTPException 401 "You are not logged in. Token is Missing")
           else
             match message_attr e with
             | Some m =>
                 if (m =? "Signature has expired")%string
                 then raise (HTTPException 401 "Token has expired, login again")
                 else raise (HTTPException 401 "Token is invalid")
             | None => raise (HTTPException 401 "Token is invalid")
             end
       end).

(** *** app/api/v1/auth/routes.py *)

(** The test shared by both OTP routes in debug mode: the user is logged
    in and the access token issued at login has not expired. *)
Definition already_logged_in (last_login_at : option Z) (now : Z) : bool :=
  match last_login_at with
  | None => false
  | Some t => now <=? t + timedelta_minutes (ACCESS_TOKEN_EXPIRES_IN settings)
  end.

Definition get_token (now : Z) (payload : CreateUserTokenRequest.t) : Op Response :=
  user <- ReadUserForToken.execute (CreateUserTokenRequest.email payload) ;;
  if DEBUG_MODE settings
     && already_logged_in (ReadUserForTokenResponse.last_login_at user) now
  then ret (JSONResponse 208 [("detail", JStr "You are logged in.")])
  else
    match ReadUserForTokenResponse.hashed_otp user with
    | None => raise (HTTPException 400 "User has not requested OTP yet")
    | Some hashed_otp =>
        if negb (verify_hashed_text (CreateUserTokenRequest.otp payload) hashed_otp)
        then
          match ReadUserForTokenResponse.otp_created_at user with
          | None => raise TypeError
          | Some otp_created_at =>
              if otp_created_at + timedelta_of_seconds (OTP_EXPIRED_TIME settings) <? now
              then raise (HTTPException 400 "OTP expired")
              else raise (HTTPException 400 "Incorrect OTP")
          end
        else
          try_except
            (UpdateUserForToken.execute
               (UpdateUserAfterTokenRequest.mk
                  (ReadUserForTokenResponse.id user) None None (Some now)))
            (fun _ => raise (HTTPException 500 "Could not login. Try again")) ;;;
          let access_token :=
            AuthJWT.create_access_token now (ReadUserForTokenResponse.id user)
              (timedelta_minutes (ACCESS_TOKEN_EXPIRES_IN settings)) in
          let refresh_token :=
            AuthJWT.create_refresh_token now (ReadUserForTokenResponse.id user)
              (timedelta_minutes (REFRESH_TOKEN_EXPIRES_IN settings)) in
          ret (CreateUserTokenResponse
                 (ReadUserForTokenResponse.username user)
                 access_token refresh_token
                 (match ReadUserForTokenResponse.age user with
                  | None => true
                  | Some _ => false
                  end))
    end.

(** The [HTTPException]s raised inside the [try] block are caught by its
    own [except Exception].  [ReadUser.execute] raises when there is no
    row, so the test [if not user] that follows it never fires. *)
Definition refresh_access_token (now : Z) (authorize : AuthJWT.t) : Op Response :=
  try_except
    (lift (AuthJWT.jwt_refresh_token_required now authorize) ;;;
     let _id := AuthJWT.get_jwt_subject authorize in
     match _id with
     | Some _id' =>
         if truthy _id
         then
           user <- ReadUser.execute _id' ;;
           let access_token :=
             AuthJWT.create_access_token now (UserSchema.id user)
               (timedelta_minutes (ACCESS_TOKEN_EXPIRES_IN settings)) in
           ret (JSONResponse 200 [("access_token", JTok access_token)])
         else raise (HTTPException 401 "Could not refresh access token")
     | None => raise (HTTPException 401 "Could not refresh access token")
     end)
    (fun e =>
       match message_attr e with
       | Some "Signature has expired" =>
           raise (HTTPException 401 "Refresh token has expired, login again")
       | _ =>
           match e with
           | AuthJWTException MissingTokenError _ =>
               raise (HTTPException 400 "Provide refresh token")
           | AuthJWTException JWTDecodeError _ =>
               raise (HTTPException 401 "Invalid refresh token")
           | _ =>
               raise (HTTPException 500
                        (if (str e =? "")%string then "Internal Server Error" else str e))
           end
       end).

Definition logout_user (now : Z) (authorize : AuthJWT.t) : Op Response :=
  user_id <- protected_route now authorize ;;
  UpdateUserForToken.execute (UpdateUserAfterTokenRequest.mk user_id None None None) ;;;
  ret (JSONResponse 200 [("message", JStr "Successfully logged out")]).

(** *** app/api/v1/user/routes.py *)

(** ["".join(str(secrets.randbelow(9) + 1) for i in range(4))] *)
Definition generate_otp (env : Env) : string :=
  String.concat "" (map (fun i => str_of_int (randbelow env i + 1)) (seq 0 4)).

Definition register_or_login_user (now : Z) (env : Env) (payload_email : string)
  : Op Response :=
  user <- CreateUser.execute payload_email (uuid4 env) (random_number env) (err_cause env) ;;
  let issue : Op Response :=
    let otp := generate_otp env in
    try_except
      ((if negb (DEBUG_MODE settings)
        then lift (sent_otp_in_email (mail_ok env))
        else ret tt) ;;;
       UpdateUserForToken.execute
         (UpdateUserAfterTokenRequest.mk
            (UserSchema.id user) (Some (hash_text (salt env) otp)) (Some now) None))
      (fun e =>
         match e with
         | CouldNotSentEmailException detail =>
             raise (HTTPException (exc_status_code e) detail)
         | _ => raise (HTTPException 503 "Could not sent email")
         end) ;;;
    ret (JSONResponse 201
           (("detail", JStr "OTP sent to email")
            :: (if DEBUG_MODE settings then [("otp", JStr otp)] else [])))
  in
  if DEBUG_MODE settings
  then
    if already_logged_in (UserSchema.last_login_at user) now
    then ret (JSONResponse 208 [("detail", JStr "You are logged in.")])
    else
      match UserSchema.otp_created_at user with
      | Some otp_created_at =>
          let time_diff :=
            otp_created_at + timedelta_of_seconds (OTP_EXPIRED_TIME settings) in
          let secs_to_retry := time_diff - now in
          if negb (time_diff <? now)
          then raise (HTTPException 400
                        ("Try again in " ++ str_of_int (timedelta_seconds secs_to_retry)
                         ++ " seconds"))
          else issue
      | None => issue
      end
  else issue.

End Routes.

(** ** Derived notions *)

(** The primary key of the table: no two rows share an [id]. *)
Definition primary_key (session : Session) : Prop := NoDup (map User.id session).

(** The tokens and flags [get_token] answers with for the row [u]. *)
Definition token_response (settings : Settings) (now : Z) (u : User.t) : Response :=
  CreateUserTokenResponse (User.username u)
    (AuthJWT.create_access_token now (User.id u)
       (timedelta_minutes (ACCESS_TOKEN_EXPIRES_IN settings)))
    (AuthJWT.create_refresh_token now (User.id u)
       (timedelta_minutes (REFRESH_TOKEN_EXPIRES_IN settings)))
    (match User.age u with None => true | Some _ => false end).

(** Clearing [is_active] in every row. *)
Definition deactivate (u : User.t) : User.t :=
  User.mk (User.id u) (User.username u) (User.email u) (User.hashed_otp u)
    (User.role_id u) (User.last_login_at u) (User.otp_created_at u) false (User.age u).

(** The columns [update_for_token] does not assign. *)
Definition identity_columns (u : User.t)
  : string * string * string * option Z * bool * option Z :=
  (User.id u, User.username u, User.email u, User.role_id u, User.is_active u, User.age u).

(** What passlib promises of [hash] and [verify]: a text verifies against
    each of its hashes. *)
Definition verifies_own_hash (txt_context : CryptContext) : Prop :=
  forall salt text, verify_hashed_text text (hash_text salt text) = true.

(** The decimal digits an OTP is made of. *)
Definition otp_digits : list ascii :=
  ["1"; "2"; "3"; "4"; "5"; "6"; "7"; "8"; "9"]%char.

(** The row of [u] with the OTP of a request stored. *)
Definition otp_stored {txt_context : CryptContext} (now : Z) (env : Env)
  : User.t -> User.t :=
  User.assign_for_token (Some (hash_text (salt env) (generate_otp env))) (Some now) None.

(** The uniqueness constraints of the table: primary key [id], unique
    [username], unique [email]. *)
Definition unique_columns (s : Session) : Prop :=
  NoDup (map User.id s) /\ NoDup (map User.username s) /\ NoDup (map User.email s).

(** ** Roles (app/models/roles.py, app/api/v1/role/operations.py,
       app/controllers/dependencies.py) *)

(** What [scalar_one_or_none] makes of the rows of a statement: the one
    row, [None] when there is none, and the exception
    [MultipleResultsFound] of the ORM when there are several. *)
Inductive Scalar (A : Type) : Type :=
| scalar (a : option A)
| MultipleResultsFound.

Arguments scalar {A} a.
Arguments MultipleResultsFound {A}.

Definition scalar_one_or_none {A : Type} (rows : list A) : Scalar A :=
  match rows with
  | [] => scalar None
  | [a] => scalar (Some a)
  | _ => MultipleResultsFound
  end.

Module Role.

Record t : Type := mk {
  id : Z;
  name : option string;
  is_active : bool
}.

(** The join condition of [Role.users]: the user's [role_id] is the id of
    the role. *)
Definition has_role (r : t) (u : User.t) : bool :=
  match User.role_id u with
  | Some role_id => role_id =? id r
  | None => false
  end.

(** [select(cls).join(cls.users).where(BaseUser.id == user_id)]: one row
    per pair of a role and a user of that role with that id. *)
Definition read_user_roles (roles : list t) (session : list User.t) (user_id : string)
  : Scalar t :=
  scalar_one_or_none
    (flat_map
       (fun r =>
          map (fun _ => r)
            (filter (fun u => has_role r u && (User.id u =? user_id)%string) session))
       roles).

(** [select(cls).where(cls.id == _id)], first row or [None]. *)
Definition read (roles : list t) (_id : Z) : option t :=
  find (fun r => id r =? _id) roles.

End Role.

Module ReadRole.

(** [role.id if role else None] *)
Definition execute (roles : list Role.t) (user_id : string) (session : Session)
  : Scalar Z :=
  match Role.read_user_roles roles session user_id with
  | scalar (Some role) => scalar (Some (Role.id role))
  | scalar None => scalar None
  | MultipleResultsFound => MultipleResultsFound
  end.

End ReadRole.

Module RoleChecker.

(** How a call of the dependency ends: with the result of the route
    code, or with the exception of the ORM, which no handler of the
    dependency catches. *)
Inductive outcome : Type :=
| answered (r : Result string)
| database_error.

(** [role not in self.allowed_roles]; a role is an id or [None]. *)
Definition role_in (role : option Z) (allowed_roles : list (option Z)) : bool :=
  existsb
    (fun allowed =>
       match role, allowed with
       | Some a, Some b => a =? b
       | None, None => true
       | _, _ => false
       end)
    allowed_roles.

(** [RoleChecker(allowed_roles).__call__]: the guard runs first, as a
    dependency. *)
Definition call (allowed_roles : list (option Z)) (roles : list Role.t)
    (now : Z) (authorize : AuthJWT.t) (session : Session) : outcome * Session :=
  match protected_route now authorize session with
  | (Raise e, session') => (answered (Raise e), session')
  | (Return user_id, session') =>
      match ReadRole.execute roles user_id session' with
      | MultipleResultsFound => (database_error, session')
      | scalar role =>
          if negb (role_in role allowed_roles)
          then (answered (Raise (HTTPException 403 "Operation not permitted")), session')
          else (answered (Return user_id), session')
      end
  end.

End RoleChecker.

(** ** Generic CRUD (app/crud/base.py) *)

Module BaseCRUDMixin.

Section Model.

(** A mapped class with an integer primary key [id] and an [is_active]
    column.  [constraints] tells whether a table satisfies the
    constraints of the schema: a commit that would break them raises
    [IntegrityError] and is rolled back. *)
Variable T : Type.
Variable id : T -> Z.
Variable is_active : T -> bool.
Variable constraints : list T -> bool.

(** [select(cls).where(cls.id == _id).where(cls.is_active.is_(True))] *)
Definition read (session : list T) (_id : Z) : option T :=
  find (fun r => (id r =? _id) && is_active r) session.

(** [select(cls).where(cls.is_active.is_(True))] *)
Definition read_all (session : list T) : list T :=
  filter is_active session.

(** The instance built from the keyword arguments, added and committed. *)
Definition create (session : list T) (instance : T) (err_cause : option string)
  : Result T * list T :=
  if constraints (session ++ [instance])%list
  then (Return instance, (session ++ [instance])%list)
  else (Raise (CouldNotPerformDBOperationException (User.creation_failed_extra err_cause)),
        session).

(** [sql_update(cls).where(cls.id == _id).values(...)]; [values] is the
    assignment of the columns named by the keyword arguments. *)
Definition update (session : list T) (_id : Z) (values : T -> T)
  : Result unit * list T :=
  let session' := map (fun r => if id r =? _id then values r else r) session in
  if constraints session'
  then (Return tt, session')
  else (Raise (CouldNotPerformDBOperationException "(User Update Failed)"), session).

(** [sql_delete(cls).where(cls.id == _id)] *)
Definition delete (session : list T) (_id : Z) : Result unit * list T :=
  let session' := filter (fun r => negb (id r =? _id)) session in
  if constraints session'
  then (Return tt, session')
  else (Raise (CouldNotPerformDBOperationException "(User Deletion Failed)"), session).

End Model.

End BaseCRUDMixin.

(** ** Profiles (app/api/v1/user/schema.py, app/api/v1/user/operations.py,
       app/api/v1/user/routes.py) *)

Inductive GenderEnum : Type := male | female | other.

(** [v.value] *)
Definition GenderEnum_value (v : GenderEnum) : string :=
  match v with
  | male => "Male"
  | female => "Female"
  | other => "Other"
  end.

(** Truthiness of [int | None] and of [float | None].  A Python float is
    a binary64 number; the profile code only stores it and tests it
    against zero. *)
Definition truthy_int (o : option Z) : bool :=
  match o with
  | None => false
  | Some n => negb (n =? 0)
  end.

Definition truthy_float (o : option float) : bool :=
  match o with
  | None => false
  | Some x => negb (PrimFloat.eqb x 0%float)
  end.

Module UserProfileUpdateRequest.
(** After validation [gender] is the value of the enum. *)
Record t : Type := mk {
  full_name : option string;
  phone_number : option string;
  age : option Z;
  gender : option GenderEnum;
  height : option float;
  weight : option float
}.
End UserProfileUpdateRequest.

Module UserProfileRequest.
Record t : Type := mk {
  full_name : string;
  phone_number : string;
  age : Z;
  gender : GenderEnum;
  height : float;
  weight : float
}.
(** The same attributes, each present. *)
Definition attributes (p : t) : UserProfileUpdateRequest.t :=
  UserProfileUpdateRequest.mk (Some (full_name p)) (Some (phone_number p)) (Some (age p))
    (Some (gender p)) (Some (height p)) (Some (weight p)).
End UserProfileRequest.

Module UserProfile.

(** The columns of [BaseUser] and [User] that only the profile operations
    touch; a row of the joined tables is a [User.t] with these. *)
Record columns : Type := mk {
  full_name : option string;
  phone_number : option string;
  gender : option string;
  height : option float;
  weight : option float
}.

Definition row : Type := User.t * columns.

(** The columns the authentication core reads, of every row. *)
Definition auth_session (table : list row) : Session := map fst table.

(** [select(cls).where(cls.id == _id)], on the full rows. *)
Definition read (table : list row) (_id : string) : option row :=
  find (fun r => (User.id (fst r) =? _id)%string) table.

(** The object [user] after the assignments of
    [CreateUpdateUserProfile.execute]: an attribute of the payload that is
    falsy leaves its column as it is. *)
Definition assign (payload : UserProfileUpdateRequest.t) (user : row) : row :=
  let (u, c) := user in
  (User.mk (User.id u) (User.username u) (User.email u) (User.hashed_otp u)
     (User.role_id u) (User.last_login_at u) (User.otp_created_at u) (User.is_active u)
     (if truthy_int (UserProfileUpdateRequest.age payload)
      then UserProfileUpdateRequest.age payload else User.age u),
   mk (if truthy (UserProfileUpdateRequest.full_name payload)
       then UserProfileUpdateRequest.full_name payload else full_name c)
      (if truthy (UserProfileUpdateRequest.phone_number payload)
       then UserProfileUpdateRequest.phone_number payload else phone_number c)
      (match UserProfileUpdateRequest.gender payload with
       | Some g => Some (GenderEnum_value g)
       | None => gender c
       end)
      (if truthy_float (UserProfileUpdateRequest.height payload)
       then UserProfileUpdateRequest.height payload else height c)
      (if truthy_float (UserProfileUpdateRequest.weight payload)
       then UserProfileUpdateRequest.weight payload else weight c)).

(** The table after the row of the object with primary key [_id] was
    changed by [f] and committed. *)
Fixpoint commit_row (_id : string) (f : row -> row) (table : list row) : list row :=
  match table with
  | [] => []
  | r :: rest =>
      if (User.id (fst r) =? _id)%string then f r :: rest else r :: commit_row _id f rest
  end.

End UserProfile.

Module CreateUpdateUserProfile.
(** The assigned columns carry no constraint, so the commit raises no
    [IntegrityError]. *)
Definition execute (user_id : string) (payload : UserProfileUpdateRequest.t)
    (table : list UserProfile.row) : Result unit * list UserProfile.row :=
  match UserProfile.read table user_id with
  | None => (Raise (NotFoundException "User not found"), table)
  | Some user =>
      (Return tt,
       UserProfile.commit_row (User.id (fst user)) (UserProfile.assign payload) table)
  end.
End CreateUpdateUserProfile.

(** [add_user_profile] and [update_user_profile]: the guard runs first, as
    a dependency, on the columns it reads; the [username] of the path is
    not used. *)
Definition add_user_profile (now : Z) (authorize : AuthJWT.t)
    (payload : UserProfileRequest.t) (table : list UserProfile.row)
  : Result string * list UserProfile.row :=
  match protected_route now authorize (UserProfile.auth_session table) with
  | (Raise e, _) => (Raise e, table)
  | (Return user_id, _) =>
      match CreateUpdateUserProfile.execute user_id
              (UserProfileRequest.attributes payload) table with
      | (Return _, table') => (Return "Profile added", table')
      | (Raise e, table') => (Raise e, table')
      end
  end.

Definition update_user_profile (now : Z) (authorize : AuthJWT.t)
    (payload : UserProfileUpdateRequest.t) (table : list UserProfile.row)
  : Result string * list UserProfile.row :=
  match protected_route now authorize (UserProfile.auth_session table) with
  | (Raise e, _) => (Raise e, table)
  | (Return user_id, _) =>
      match CreateUpdateUserProfile.execute user_id payload table with
      | (Return _, table') => (Return "Profile updated", table')
      | (Raise e, table') => (Raise e, table')
      end
  end.

(** The role the join finds for the row [u]: the role its [role_id]
    names, when the [roles] table has it. *)
Definition role_of (roles : list Role.t) (u : User.t) : option Z :=
  match User.role_id u with
  | Some role_id => option_map Role.id (Role.read roles role_id)
  | None => None
  end.

(** The columns the profile operations do not assign. *)
Definition auth_columns (u : User.t)
  : string * string * string * option string * option Z * option Z * option Z * bool :=
  (User.id u, User.username u, User.email u, User.hashed_otp u, User.role_id u,
   User.last_login_at u, User.otp_created_at u, User.is_active u).

(** ** Sample data *)

Module Sample.

(** A stand-in for bcrypt: the hash of a text is the text behind a
    fixed prefix. *)
Definition crypt : CryptContext :=
  {| hash := fun _ text => "$2b$" ++ text;
     verify := fun text hashed => (hashed =? "$2b$" ++ text)%string |}.

(** OTP valid for 300 s, access token for 30 min, refresh token for a day. *)
Definition production : Settings := mkSettings 300 30 1440 false.
Definition debug : Settings := mkSettings 300 30 1440 true.

Definition no_str (e : Exception) : string := "".

Definition row (hashed_otp : option string) (last_login_at otp_created_at : option Z)
    (is_active : bool) : User.t :=
  User.mk "7c9e6679" "alice" "alice@x.com" hashed_otp (Some 1)
    last_login_at otp_created_at is_active None.

(** OTP 1234 issued at second 1000. *)
Definition pending : User.t := row (Some "$2b$1234") None (Some 1000) true.
(** Logged in at second 1100. *)
Definition logged_in : User.t := row None (Some 1100) None true.
Definition logged_out : User.t := row None None None true.
(** Soft-deleted, with an OTP issued at second 1000. *)
Definition deleted : User.t := row (Some "$2b$1234") None (Some 1000) false.
(** Soft-deleted and logged out. *)
Definition deleted_logged_out : User.t := row None None None false.

Definition access_token : AuthJWT.token := AuthJWT.mk AuthJWT.access "7c9e6679" 2900.
Definition refresh_token : AuthJWT.token := AuthJWT.mk AuthJWT.refresh "7c9e6679" 87500.

Definition env : Env :=
  mkEnv "0b5f9d2e" 4821 None (fun i => Z.of_nat i + 4) "salt" true.

End Sample.

(** ** Proof steps *)

Ltac unfold_guard :=
  unfold protected_route, try_except, bind, lift, raise, ret,
    AuthJWT.jwt_required, AuthJWT.verify_jwt_in_request,
    AuthJWT.get_jwt_subject, ReadUser.execute_for_auth.

Ltac unfold_refresh :=
  unfold refresh_access_token, try_except, bind, lift, raise, ret,
    AuthJWT.jwt_refresh_token_required, AuthJWT.verify_jwt_in_request,
    AuthJWT.get_jwt_subject, ReadUser.execute.

(** * Properties *)

(** ** The table *)

Lemma find_some_eqb (A : Type) (key : A -> string) (k : string) (l : list A) (a : A) :
  find (fun x => (key x =? k)%string) l = Some a -> In a l /\ key a = k.
Proof.
  intros H. apply find_some in H. destruct H as [Hin Heq].
  split; [assumption | now apply String.eqb_eq].
Qed.

Lemma read_some (s : Session) (_id : string) (u : User.t) :
  User.read s _id = Some u -> In u s /\ User.id u = _id.
Proof. apply find_some_eqb. Qed.

Lemma read_by_email_some (s : Session) (e : string) (u : User.t) :
  User.read_by_email s e = Some u -> In u s /\ User.email u = e.
Proof. apply find_some_eqb. Qed.

(** A row found by its email is, under the primary key, the row found by
    its id. *)
Lemma read_by_email_read (s : Session) (e : string) (u : User.t) :
  primary_key s ->
  User.read_by_email s e = Some u ->
  User.read s (User.id u) = Some u.
Proof.
  unfold primary_key, User.read_by_email, User.read.
  induction s as [|h rest IH]; cbn; intros Hnd Hf; [discriminate|].
  inversion Hnd as [|? ? Hnotin Hnd']; subst.
  destruct (User.email h =? e)%string.
  - injection Hf as ->. now rewrite String.eqb_refl.
  - destruct (User.id h =? User.id u)%string eqn:Hid.
    + exfalso. apply String.eqb_eq in Hid. apply Hnotin. rewrite Hid.
      apply in_map. now apply find_some in Hf.
    + now apply IH.
Qed.

(** Reading by id after the row of that id was committed. *)
Lemma read_commit_row (s : Session) (_id : string) (f : User.t -> User.t) :
  (forall u, User.id (f u) = User.id u) ->
  User.read (User.commit_row _id f s) _id = option_map f (User.read s _id).
Proof.
  intros Hf. unfold User.read.
  induction s as [|h rest IH]; cbn; [reflexivity|].
  destruct (User.id h =? _id)%string eqn:Hid; cbn.
  - now rewrite Hf, Hid.
  - now rewrite Hid.
Qed.

(** Reading by email after the row found by that email was committed. *)
Lemma read_by_email_commit_row (s : Session) (e : string) (u : User.t) (f : User.t -> User.t) :
  primary_key s ->
  (forall v, User.email (f v) = User.email v) ->
  User.read_by_email s e = Some u ->
  User.read_by_email (User.commit_row (User.id u) f s) e = Some (f u).
Proof.
  unfold primary_key, User.read_by_email.
  intros Hnd Hf.
  induction s as [|h rest IH]; cbn; intros Hfind; [discriminate|].
  inversion Hnd as [|? ? Hnotin Hnd']; subst.
  destruct (User.email h =? e)%string eqn:He.
  - injection Hfind as ->. rewrite String.eqb_refl. cbn. now rewrite Hf, He.
  - destruct (User.id h =? User.id u)%string eqn:Hid.
    + exfalso. apply String.eqb_eq in Hid. apply Hnotin. rewrite Hid.
      apply in_map. now apply find_some in Hfind.
    + cbn. rewrite He. now apply IH.
Qed.

Lemma assign_for_token_id (o : option string) (c l : option Z) (u : User.t) :
  User.id (User.assign_for_token o c l u) = User.id u.
Proof. reflexivity. Qed.

Lemma assign_for_token_email (o : option string) (c l : option Z) (u : User.t) :
  User.email (User.assign_for_token o c l u) = User.email u.
Proof. reflexivity. Qed.

(** [UpdateUserForToken.execute] on a row that exists: it returns and
    commits the three columns. *)
Lemma update_for_token_execute (s : Session) (u : User.t)
    (payload : UpdateUserAfterTokenRequest.t) :
  User.read s (UpdateUserAfterTokenRequest.id payload) = Some u ->
  UpdateUserForToken.execute payload s =
    (Return tt,
     User.commit_row (User.id u)
       (User.assign_for_token (UpdateUserAfterTokenRequest.otp payload)
          (UpdateUserAfterTokenRequest.otp_created_at payload)
          (UpdateUserAfterTokenRequest.last_login_at payload)) s).
Proof.
  intros Hr. unfold UpdateUserForToken.execute. now rewrite Hr.
Qed.

(** ** The authorization guard *)

(** The guard on a well-formed, unexpired access token: the store decides. *)
Lemma protected_route_bearer (now : Z) (tok : AuthJWT.token) (s : Session) :
  now < AuthJWT.exp tok ->
  AuthJWT.type tok = AuthJWT.access ->
  protected_route now (AuthJWT.bearer tok) s =
    match User.read_for_auth s (AuthJWT.sub tok) with
    | None => (Raise (HTTPException 401 "User not found"), s)
    | Some u =>
        if negb (User.is_active u)
        then (Raise (HTTPException 401 "User no longer exist"), s)
        else match User.last_login_at u with
             | None => (Raise (HTTPException 401 "Log in first to access this route"), s)
             | Some _ => (Return (User.id u), s)
             end
    end.
Proof.
  intros Hexp Hty. unfold_guard.
  destruct (AuthJWT.exp tok <=? now) eqn:E; [apply Z.leb_le in E; lia|].
  rewrite Hty. cbn.
  destruct (User.read_for_auth s (AuthJWT.sub tok)) as [u|]; cbn; [|reflexivity].
  destruct (User.is_active u); cbn; [|reflexivity].
  destruct (User.last_login_at u); reflexivity.
Qed.

(** The guard never writes, and every rejection is a 401. *)
Lemma protected_route_rejects_401 (now : Z) (authorize : AuthJWT.t) (s : Session) :
  (exists uid, protected_route now authorize s = (Return uid, s)) \/
  (exists detail, protected_route now authorize s = (Raise (HTTPException 401 detail), s)).
Proof.
  unfold_guard.
  destruct authorize as [|m|m|tok]; cbn.
  - right. eexists. reflexivity.
  - right. destruct (m =? "Signature has expired")%string; eexists; reflexivity.
  - right. eexists. reflexivity.
  - destruct (AuthJWT.exp tok <=? now); cbn; [right; eexists; reflexivity|].
    destruct (AuthJWT.type tok); cbn; [|right; eexists; reflexivity].
    destruct (User.read_for_auth s (AuthJWT.sub tok)) as [u|]; cbn;
      [|right; eexists; reflexivity].
    destruct (User.is_active u); cbn; [|right; eexists; reflexivity].
    destruct (User.last_login_at u); cbn; [left|right]; eexists; reflexivity.
Qed.

(** What an accepted request tells about the token and the store. *)
Lemma protected_route_return (now : Z) (authorize : AuthJWT.t) (s s' : Session) (uid : string) :
  protected_route now authorize s = (Return uid, s') ->
  exists tok u,
    authorize = AuthJWT.bearer tok /\ now < AuthJWT.exp tok /\
    AuthJWT.type tok = AuthJWT.access /\
    User.read s (AuthJWT.sub tok) = Some u /\
    User.is_active u = true /\ User.last_login_at u <> None /\
    uid = User.id u /\ User.id u = AuthJWT.sub tok /\ s' = s.
Proof.
  unfold_guard.
  destruct authorize as [|m|m|tok]; cbn; try discriminate.
  - destruct (m =? "Signature has expired")%string; discriminate.
  - destruct (AuthJWT.exp tok <=? now) eqn:E; cbn; [discriminate|].
    destruct (AuthJWT.type tok) eqn:T; cbn; [|discriminate].
    destruct (User.read_for_auth s (AuthJWT.sub tok)) as [u|] eqn:R; cbn; [|discriminate].
    destruct (User.is_active u) eqn:A; cbn; [|discriminate].
    destruct (User.last_login_at u) eqn:L; cbn; [|discriminate].
    intros H. injection H as <- <-.
    exists tok, u. apply Z.leb_gt in E.
    pose proof (read_some _ _ _ R) as [_ Hid].
    repeat split; try assumption; try reflexivity. congruence.
Qed.

(** ** Logout *)

(** A logout the guard accepts returns, and leaves the row logged out
    with no OTP. *)
Lemma logout_user_accepted (now : Z) (tok : AuthJWT.token) (s : Session) (u : User.t) :
  now < AuthJWT.exp tok ->
  AuthJWT.type tok = AuthJWT.access ->
  User.read s (AuthJWT.sub tok) = Some u ->
  User.is_active u = true ->
  User.last_login_at u <> None ->
  logout_user now (AuthJWT.bearer tok) s =
    (Return (JSONResponse 200 [("message", JStr "Successfully logged out")]),
     User.commit_row (User.id u) (User.assign_for_token None None None) s).
Proof.
  intros Hexp Hty Hr Ha Hl.
  unfold logout_user, bind at 1.
  rewrite (protected_route_bearer now tok s Hexp Hty).
  unfold User.read_for_auth. unfold User.read in Hr. rewrite Hr, Ha. cbn.
  destruct (User.last_login_at u) eqn:L; [|congruence].
  pose proof (read_some _ _ _ Hr) as [_ Hid].
  unfold bind.
  rewrite (update_for_token_execute s u); [reflexivity|].
  cbn. now rewrite Hid.
Qed.

(** A logout the guard rejects writes nothing. *)
Lemma logout_user_rejected (now : Z) (authorize : AuthJWT.t) (s : Session) (detail : string) :
  protected_route now authorize s = (Raise (HTTPException 401 detail), s) ->
  logout_user now authorize s = (Raise (HTTPException 401 detail), s).
Proof.
  intros H. unfold logout_user, bind. now rewrite H.
Qed.

(** ** Login *)

Lemma read_in (s : Session) (u : User.t) :
  In u s -> exists u', User.read s (User.id u) = Some u' /\ User.id u' = User.id u.
Proof.
  intros Hin. unfold User.read.
  destruct (find (fun x => (User.id x =? User.id u)%string) s) as [u'|] eqn:F.
  - exists u'. split; [reflexivity|]. now apply find_some_eqb in F.
  - exfalso. pose proof (find_none _ _ F u Hin) as H. cbn in H.
    now rewrite String.eqb_refl in H.
Qed.

Section Login.

Context (settings : Settings) {txt_context : CryptContext}.

(** A matching code logs the user in; [otp_created_at] is not read on
    this path. *)
Lemma get_token_matching_otp (now : Z) (payload : CreateUserTokenRequest.t)
    (s : Session) (u : User.t) (h : string) :
  User.read_by_email s (CreateUserTokenRequest.email payload) = Some u ->
  DEBUG_MODE settings && already_logged_in settings (User.last_login_at u) now = false ->
  User.hashed_otp u = Some h ->
  verify_hashed_text (CreateUserTokenRequest.otp payload) h = true ->
  get_token settings now payload s =
    (Return (token_response settings now u),
     User.commit_row (User.id u) (User.assign_for_token None None (Some now)) s).
Proof.
  intros Hr Hdbg Hh Hv.
  unfold get_token, bind at 1, ReadUserForToken.execute. rewrite Hr. cbn.
  rewrite Hdbg, Hh, Hv. cbn.
  destruct (read_in s u) as [u' [Hu' Hid]]; [now apply read_by_email_some in Hr|].
  unfold bind, try_except.
  rewrite (update_for_token_execute s u'); [|exact Hu'].
  cbn. rewrite Hid. reflexivity.
Qed.

(** A code that does not match: only now is the expiry looked at. *)
Lemma get_token_wrong_otp (now : Z) (payload : CreateUserTokenRequest.t)
    (s : Session) (u : User.t) (h : string) (created : Z) :
  User.read_by_email s (CreateUserTokenRequest.email payload) = Some u ->
  DEBUG_MODE settings && already_logged_in settings (User.last_login_at u) now = false ->
  User.hashed_otp u = Some h ->
  User.otp_created_at u = Some created ->
  verify_hashed_text (CreateUserTokenRequest.otp payload) h = false ->
  get_token settings now payload s =
    (Raise (HTTPException 400
              (if created + OTP_EXPIRED_TIME settings <? now
               then "OTP expired" else "Incorrect OTP")), s).
Proof.
  intros Hr Hdbg Hh Hc Hv.
  unfold get_token, bind, ReadUserForToken.execute. rewrite Hr. cbn.
  rewrite Hdbg, Hh, Hv, Hc. cbn. unfold timedelta_of_seconds.
  destruct (created + OTP_EXPIRED_TIME settings <? now); reflexivity.
Qed.

(** No outstanding OTP. *)
Lemma get_token_no_otp (now : Z) (payload : CreateUserTokenRequest.t)
    (s : Session) (u : User.t) :
  User.read_by_email s (CreateUserTokenRequest.email payload) = Some u ->
  User.hashed_otp u = None ->
  get_token settings now payload s =
    if DEBUG_MODE settings && already_logged_in settings (User.last_login_at u) now
    then (Return (JSONResponse 208 [("detail", JStr "You are logged in.")]), s)
    else (Raise (HTTPException 400 "User has not requested OTP yet"), s).
Proof.
  intros Hr Hh.
  unfold get_token, bind, ReadUserForToken.execute. rewrite Hr. cbn.
  destruct (DEBUG_MODE settings && already_logged_in settings (User.last_login_at u) now);
    [reflexivity|].
  now rewrite Hh.
Qed.

(** What a returned token response tells about the request. *)
Lemma get_token_response_inv (now : Z) (payload : CreateUserTokenRequest.t)
    (s s' : Session) (name : string) (at_ rt : AuthJWT.token) (new : bool) :
  get_token settings now payload s = (Return (CreateUserTokenResponse name at_ rt new), s') ->
  exists u h,
    User.read_by_email s (CreateUserTokenRequest.email payload) = Some u /\
    DEBUG_MODE settings && already_logged_in settings (User.last_login_at u) now = false /\
    User.hashed_otp u = Some h /\
    verify_hashed_text (CreateUserTokenRequest.otp payload) h = true.
Proof.
  unfold get_token, bind at 1, ReadUserForToken.execute.
  destruct (User.read_by_email s (CreateUserTokenRequest.email payload)) as [u|] eqn:Hr;
    [|discriminate].
  cbn.
  destruct (DEBUG_MODE settings && already_logged_in settings (User.last_login_at u) now)
    eqn:Hdbg; [discriminate|].
  destruct (User.hashed_otp u) as [h|] eqn:Hh; [|discriminate].
  destruct (verify_hashed_text (CreateUserTokenRequest.otp payload) h) eqn:Hv; cbn.
  - intros _. exists u, h. repeat split; assumption.
  - destruct (User.otp_created_at u); [|discriminate].
    destruct (_ <? _); discriminate.
Qed.

End Login.

(** ** The model at work *)

Example split_at_0_alice : split_at_0 "alice@x.com" = "alice".
Proof. reflexivity. Qed.

Example generate_otp_sample : generate_otp Sample.env = "5678".
Proof. reflexivity. Qed.

Example timedelta_seconds_wraps : timedelta_seconds 86405 = 5 /\ timedelta_seconds (-1) = 86399.
Proof. split; reflexivity. Qed.

(** First request of an unseen email: the row is created and the OTP stored. *)
Example register_creates_row :
  @register_or_login_user Sample.production Sample.crypt 1000 Sample.env "bob@x.com"
    [Sample.logged_out]
  = (Return (JSONResponse 201 [("detail", JStr "OTP sent to email")]),
     [Sample.logged_out;
      User.mk "0b5f9d2e" "bob" "bob@x.com" (Some "$2b$5678") (Some 1) None (Some 1000)
        true None]).
Proof. reflexivity. Qed.

(** A taken username gets the random number appended. *)
Example register_username_taken :
  User.create [Sample.logged_out] "alice@y.org" (Some 1) "0b5f9d2e" 4821 None
  = (Return (User.mk "0b5f9d2e" "alice4821" "alice@y.org" None (Some 1) None None true None),
     [Sample.logged_out;
      User.mk "0b5f9d2e" "alice4821" "alice@y.org" None (Some 1) None None true None]).
Proof. reflexivity. Qed.

(** Before expiry: a wrong code is "Incorrect OTP", the right one logs in;
    after expiry a wrong code is "OTP expired". *)
Example get_token_scenario :
  let wrong := CreateUserTokenRequest.mk "alice@x.com" "9999" in
  let right := CreateUserTokenRequest.mk "alice@x.com" "1234" in
  @get_token Sample.production Sample.crypt 1299 wrong [Sample.pending]
  = (Raise (HTTPException 400 "Incorrect OTP"), [Sample.pending]) /\
  @get_token Sample.production Sample.crypt 1301 wrong [Sample.pending]
  = (Raise (HTTPException 400 "OTP expired"), [Sample.pending]) /\
  fst (@get_token Sample.production Sample.crypt 1299 right [Sample.pending])
  = Return (token_response Sample.production 1299 Sample.pending).
Proof. cbv zeta. split; [reflexivity | split; reflexivity]. Qed.

(** The guard on tokens that never reach the store. *)
Example protected_route_token_errors :
  protected_route 2000 AuthJWT.missing []
  = (Raise (HTTPException 401 "You are not logged in. Token is Missing"), []) /\
  protected_route 2900 (AuthJWT.bearer Sample.access_token) [Sample.logged_in]
  = (Raise (HTTPException 401 "Token has expired, login again"), [Sample.logged_in]) /\
  protected_route 2000 (AuthJWT.bearer Sample.refresh_token) [Sample.logged_in]
  = (Raise (HTTPException 401 "Token is invalid"), [Sample.logged_in]) /\
  protected_route 2000 (AuthJWT.bearer Sample.access_token) [Sample.logged_in]
  = (Return "7c9e6679", [Sample.logged_in]).
Proof. split; [reflexivity | split; [reflexivity | split; reflexivity]]. Qed.

(** ** The statements of the specification *)

(** C1.  The hash comparison of [get_token] comes first and the expiry
    test sits in its failure branch only ([get_token_matching_otp],
    [get_token_wrong_otp]).  The claimed consequence does not hold for the
    code: the OTP 1234 issued at second 1000 with a lifetime of 300 s and
    submitted at second 5000 is accepted; the user is logged in and
    receives both tokens instead of the answer "OTP expired". *)
Theorem get_token_accepts_matching_otp_after_expiry :
  @get_token Sample.production Sample.crypt 5000
    (CreateUserTokenRequest.mk "alice@x.com" "1234") [Sample.pending]
  = (Return (CreateUserTokenResponse "alice"
               (AuthJWT.mk AuthJWT.access "7c9e6679" 6800)
               (AuthJWT.mk AuthJWT.refresh "7c9e6679" 91400) true),
     [Sample.row None (Some 5000) None true]).
Proof. reflexivity. Qed.

(** The lookups by email and by id carry no [is_active] filter: they find
    in a table of soft-deleted rows what they find in the original. *)
Lemma read_by_email_deactivate (s : Session) (e : string) :
  User.read_by_email (map deactivate s) e = option_map deactivate (User.read_by_email s e).
Proof.
  unfold User.read_by_email.
  induction s as [|h rest IH]; cbn; [reflexivity|].
  destruct (User.email h =? e)%string; [reflexivity | exact IH].
Qed.

Lemma read_deactivate (s : Session) (_id : string) :
  User.read (map deactivate s) _id = option_map deactivate (User.read s _id).
Proof.
  unfold User.read.
  induction s as [|h rest IH]; cbn; [reflexivity|].
  destruct (User.id h =? _id)%string; [reflexivity | exact IH].
Qed.

(** C3.  The code departs from the claim: a soft-deleted row
    ([is_active = false]) is returned by the lookup by email and by the
    lookup by id, [ReadUserForToken.execute] answers with it instead of
    raising "User not found", and [get_token] logs the soft-deleted user
    in. *)
Theorem soft_deleted_user_is_found :
  User.read_by_email [Sample.deleted] "alice@x.com" = Some Sample.deleted /\
  User.read [Sample.deleted] "7c9e6679" = Some Sample.deleted /\
  ReadUserForToken.execute "alice@x.com" [Sample.deleted]
  = (Return (ReadUserForTokenResponse.model_validate Sample.deleted), [Sample.deleted]) /\
  @get_token Sample.production Sample.crypt 1100
    (CreateUserTokenRequest.mk "alice@x.com" "1234") [Sample.deleted]
  = (Return (CreateUserTokenResponse "alice"
               (AuthJWT.mk AuthJWT.access "7c9e6679" 2900)
               (AuthJWT.mk AuthJWT.refresh "7c9e6679" 87500) true),
     [Sample.row None (Some 1100) None false]).
Proof. repeat split. Qed.

(** C4, as stated, fails: with the same valid access token the guard
    answers "User not found" when the row is absent, "User no longer
    exist" when it is soft-deleted and "Log in first to access this route"
    when it is logged out, three different texts. *)
Lemma unauthorized_details_differ :
  let authorize := AuthJWT.bearer Sample.access_token in
  let absent := fst (protected_route 2000 authorize []) in
  let inactive := fst (protected_route 2000 authorize [Sample.deleted]) in
  let not_logged_in := fst (protected_route 2000 authorize [Sample.logged_out]) in
  absent = Raise (HTTPException 401 "User not found") /\
  inactive = Raise (HTTPException 401 "User no longer exist") /\
  not_logged_in = Raise (HTTPException 401 "Log in first to access this route") /\
  absent <> inactive /\ absent <> not_logged_in /\ inactive <> not_logged_in.
Proof. cbv zeta. repeat split; discriminate. Qed.

(** C4, amended.  For an unexpired access token, each of the three causes
    is surfaced as an HTTP 401, with a detail text of its own: "User not
    found" for an absent row, "User no longer exist" for a soft-deleted
    one, "Log in first to access this route" for a logged-out one.  The
    store is left as it was. *)
Theorem unauthorized_same_status_own_detail (now : Z) (tok : AuthJWT.token) (s : Session) :
  now < AuthJWT.exp tok ->
  AuthJWT.type tok = AuthJWT.access ->
  (User.read_for_auth s (AuthJWT.sub tok) = None ->
   protected_route now (AuthJWT.bearer tok) s
   = (Raise (HTTPException 401 "User not found"), s)) /\
  (forall u, User.read_for_auth s (AuthJWT.sub tok) = Some u ->
   User.is_active u = false ->
   protected_route now (AuthJWT.bearer tok) s
   = (Raise (HTTPException 401 "User no longer exist"), s)) /\
  (forall u, User.read_for_auth s (AuthJWT.sub tok) = Some u ->
   User.is_active u = true ->
   User.last_login_at u = None ->
   protected_route now (AuthJWT.bearer tok) s
   = (Raise (HTTPException 401 "Log in first to access this route"), s)).
Proof.
  intros Hexp Hty.
  rewrite (protected_route_bearer now tok s Hexp Hty).
  repeat split.
  - intros ->. reflexivity.
  - intros u -> ->. reflexivity.
  - intros u -> -> ->. reflexivity.
Qed.

Lemma unauthorized_same_status_own_detail_witness :
  let authorize := AuthJWT.bearer Sample.access_token in
  protected_route 2000 authorize []
  = (Raise (HTTPException 401 "User not found"), []) /\
  protected_route 2000 authorize [Sample.deleted]
  = (Raise (HTTPException 401 "User no longer exist"), [Sample.deleted]) /\
  protected_route 2000 authorize [Sample.logged_out]
  = (Raise (HTTPException 401 "Log in first to access this route"), [Sample.logged_out]).
Proof.
  cbv zeta. split; [|split].
  - apply (unauthorized_same_status_own_detail 2000 Sample.access_token []);
      [cbn; lia | reflexivity | reflexivity].
  - apply (unauthorized_same_status_own_detail 2000 Sample.access_token [Sample.deleted])
      with (u := Sample.deleted); [cbn; lia | reflexivity | reflexivity | reflexivity].
  - apply (unauthorized_same_status_own_detail 2000 Sample.access_token [Sample.logged_out])
      with (u := Sample.logged_out);
      [cbn; lia | reflexivity | reflexivity | reflexivity | reflexivity].
Defined.

(** A logout that returns was accepted by the guard. *)
Lemma logout_user_return (now : Z) (authorize : AuthJWT.t) (s s1 : Session) (r : Response) :
  logout_user now authorize s = (Return r, s1) ->
  exists tok u,
    authorize = AuthJWT.bearer tok /\
    User.read s (AuthJWT.sub tok) = Some u /\
    User.id u = AuthJWT.sub tok /\
    User.is_active u = true /\
    r = JSONResponse 200 [("message", JStr "Successfully logged out")] /\
    s1 = User.commit_row (User.id u) (User.assign_for_token None None None) s.
Proof.
  intros H.
  destruct (protected_route_rejects_401 now authorize s) as [[uid Hp]|[d Hp]].
  - destruct (protected_route_return _ _ _ _ _ Hp)
      as (tok & u & -> & Hexp & Hty & Hr & Ha & Hl & _ & Hid & _).
    rewrite (logout_user_accepted now tok s u Hexp Hty Hr Ha Hl) in H.
    injection H as <- <-. exists tok, u. repeat split; assumption.
  - rewrite (logout_user_rejected _ _ _ _ Hp) in H. discriminate.
Qed.

(** Logging out a user whose row is logged out is rejected. *)
Lemma logout_user_logged_out (now : Z) (tok : AuthJWT.token) (s : Session) (u : User.t) :
  User.read s (AuthJWT.sub tok) = Some u ->
  User.last_login_at u = None ->
  exists detail,
    logout_user now (AuthJWT.bearer tok) s = (Raise (HTTPException 401 detail), s).
Proof.
  intros Hr Hl.
  destruct (protected_route_rejects_401 now (AuthJWT.bearer tok) s) as [[uid Hp]|[d Hp]].
  - exfalso.
    destruct (protected_route_return _ _ _ _ _ Hp)
      as (tok' & u' & Heq & _ & _ & Hr' & _ & Hl' & _).
    injection Heq as <-. rewrite Hr in Hr'. injection Hr' as <-. contradiction.
  - exists d. now apply logout_user_rejected.
Qed.

(** C5, as stated, fails: the user logged in at second 1100 logs out at
    second 2000; the same request one second later is answered 401 "Log in
    first to access this route", not with a success.  So is a logout of a
    user who was logged out from the start. *)
Lemma second_logout_is_rejected :
  let authorize := AuthJWT.bearer Sample.access_token in
  logout_user 2000 authorize [Sample.logged_in]
  = (Return (JSONResponse 200 [("message", JStr "Successfully logged out")]),
     [Sample.logged_out]) /\
  logout_user 2001 authorize [Sample.logged_out]
  = (Raise (HTTPException 401 "Log in first to access this route"), [Sample.logged_out]).
Proof. split; reflexivity. Qed.

(** C5, amended.  A logout for a user who is logged out already
    ([last_login_at] null) is rejected with an HTTP 401 and leaves the
    store as it is; so of two logouts in a row with the same token the
    first returns, the second is rejected with an HTTP 401, and the store
    after the second is the store after the first. *)
Theorem logout_user_twice :
  (forall now tok s u,
      User.read s (AuthJWT.sub tok) = Some u ->
      User.last_login_at u = None ->
      exists detail,
        logout_user now (AuthJWT.bearer tok) s = (Raise (HTTPException 401 detail), s)) /\
  (forall now1 now2 authorize s r s1,
      logout_user now1 authorize s = (Return r, s1) ->
      exists detail,
        logout_user now2 authorize s1 = (Raise (HTTPException 401 detail), s1)).
Proof.
  split.
  - exact logout_user_logged_out.
  - intros now1 now2 authorize s r s1 H.
    destruct (logout_user_return _ _ _ _ _ H) as (tok & u & -> & Hr & Hid & _ & _ & ->).
    apply logout_user_logged_out
      with (u := User.assign_for_token None None None u); [|reflexivity].
    rewrite <- Hid.
    rewrite read_commit_row by (intros; apply assign_for_token_id).
    rewrite Hid, Hr. reflexivity.
Qed.

Lemma logout_user_twice_witness :
  (exists detail,
      logout_user 2000 (AuthJWT.bearer Sample.access_token) [Sample.logged_out]
      = (Raise (HTTPException 401 detail), [Sample.logged_out])) /\
  (exists detail,
      logout_user 2001 (AuthJWT.bearer Sample.access_token) [Sample.logged_out]
      = (Raise (HTTPException 401 detail), [Sample.logged_out])).
Proof.
  split.
  - apply (proj1 logout_user_twice 2000 Sample.access_token [Sample.logged_out]
             Sample.logged_out); reflexivity.
  - apply (proj2 logout_user_twice 2000 2001 (AuthJWT.bearer Sample.access_token)
             [Sample.logged_in]
             (JSONResponse 200 [("message", JStr "Successfully logged out")])
             [Sample.logged_out]).
    reflexivity.
Defined.

(** C7.  For every request the guard accepts (a user who is active and
    logged in, with an unexpired access token), the logout returns, and the
    guard then rejects the same token, as long as it has not expired, with
    an HTTP 401 "Log in first to access this route": the store decides, not
    the token. *)
Theorem logout_then_authenticate_unauthorized
    (now1 now2 : Z) (tok : AuthJWT.token) (s : Session) (uid : string) :
  protected_route now1 (AuthJWT.bearer tok) s = (Return uid, s) ->
  now2 < AuthJWT.exp tok ->
  exists s',
    logout_user now1 (AuthJWT.bearer tok) s
    = (Return (JSONResponse 200 [("message", JStr "Successfully logged out")]), s') /\
    protected_route now2 (AuthJWT.bearer tok) s'
    = (Raise (HTTPException 401 "Log in first to access this route"), s').
Proof.
  intros Hp Hexp2.
  destruct (protected_route_return _ _ _ _ _ Hp)
    as (tok' & u & Heq & Hexp & Hty & Hr & Ha & Hl & _ & Hid & _).
  injection Heq as <-.
  eexists. split.
  - apply (logout_user_accepted now1 tok s u); assumption.
  - rewrite (protected_route_bearer now2 tok _ Hexp2 Hty).
    unfold User.read_for_auth. fold (User.read (User.commit_row (User.id u)
      (User.assign_for_token None None None) s) (AuthJWT.sub tok)).
    rewrite <- Hid.
    rewrite read_commit_row by (intros; apply assign_for_token_id).
    rewrite Hid, Hr. cbn. rewrite Ha. reflexivity.
Qed.

Lemma logout_then_authenticate_unauthorized_witness :
  exists s',
    logout_user 2000 (AuthJWT.bearer Sample.access_token) [Sample.logged_in]
    = (Return (JSONResponse 200 [("message", JStr "Successfully logged out")]), s') /\
    protected_route 2500 (AuthJWT.bearer Sample.access_token) s'
    = (Raise (HTTPException 401 "Log in first to access this route"), s').
Proof.
  apply (logout_then_authenticate_unauthorized 2000 2500 Sample.access_token
           [Sample.logged_in] "7c9e6679").
  - reflexivity.
  - cbn. lia.
Defined.

(** C8, as stated, fails in debug mode: after the login at second 1100 the
    OTP columns are null and [last_login_at] is set, but a second
    verification one second later is answered 208 "You are logged in.",
    not "User has not requested OTP yet". *)
Lemma second_verify_in_debug_mode :
  let payload := CreateUserTokenRequest.mk "alice@x.com" "1234" in
  @get_token Sample.debug Sample.crypt 1100 payload [Sample.pending]
  = (Return (CreateUserTokenResponse "alice"
               (AuthJWT.mk AuthJWT.access "7c9e6679" 2900)
               (AuthJWT.mk AuthJWT.refresh "7c9e6679" 87500) true),
     [Sample.logged_in]) /\
  @get_token Sample.debug Sample.crypt 1101 payload [Sample.logged_in]
  = (Return (JSONResponse 208 [("detail", JStr "You are logged in.")]),
     [Sample.logged_in]) /\
  @get_token Sample.debug Sample.crypt 1101 payload [Sample.logged_in]
  <> (Raise (HTTPException 400 "User has not requested OTP yet"), [Sample.logged_in]).
Proof. cbv zeta. split; [reflexivity | split; [reflexivity | discriminate]]. Qed.

(** C8, amended.  After a login that answered with tokens, the row of the
    user has [hashed_otp] and [otp_created_at] null and [last_login_at]
    set to the time of the login.  A second verification of any code for
    that user fails with 400 "User has not requested OTP yet", except in
    debug mode while the access token of the login has not expired, where
    it is answered 208 "You are logged in.".  Neither changes the store. *)
Theorem login_consumes_otp (settings : Settings) (txt_context : CryptContext)
    (now : Z) (payload : CreateUserTokenRequest.t) (s s' : Session)
    (name : string) (at_ rt : AuthJWT.token) (new : bool) :
  primary_key s ->
  get_token settings now payload s = (Return (CreateUserTokenResponse name at_ rt new), s') ->
  (exists u,
      User.read_by_email s' (CreateUserTokenRequest.email payload) = Some u /\
      User.hashed_otp u = None /\
      User.otp_created_at u = None /\
      User.last_login_at u = Some now) /\
  (forall now2 otp2,
      get_token settings now2
        (CreateUserTokenRequest.mk (CreateUserTokenRequest.email payload) otp2) s'
      = if DEBUG_MODE settings
           && (now2 <=? now + timedelta_minutes (ACCESS_TOKEN_EXPIRES_IN settings))
        then (Return (JSONResponse 208 [("detail", JStr "You are logged in.")]), s')
        else (Raise (HTTPException 400 "User has not requested OTP yet"), s')).
Proof.
  intros Hpk H.
  destruct (get_token_response_inv settings _ _ _ _ _ _ _ _ H)
    as (u & h & Hr & Hdbg & Hh & Hv).
  rewrite (get_token_matching_otp settings now payload s u h Hr Hdbg Hh Hv) in H.
  assert (Hs : s' = User.commit_row (User.id u)
                      (User.assign_for_token None None (Some now)) s) by congruence.
  subst s'. clear H.
  assert (Hr' : User.read_by_email
                  (User.commit_row (User.id u) (User.assign_for_token None None (Some now)) s)
                  (CreateUserTokenRequest.email payload)
                = Some (User.assign_for_token None None (Some now) u)).
  { apply read_by_email_commit_row; [assumption | | assumption].
    intros; apply assign_for_token_email. }
  split.
  - eexists. split; [exact Hr'|]. repeat split.
  - intros now2 otp2.
    rewrite (get_token_no_otp settings now2
               (CreateUserTokenRequest.mk (CreateUserTokenRequest.email payload) otp2)
               _ _ Hr'); reflexivity.
Qed.

Lemma login_consumes_otp_witness :
  let payload := CreateUserTokenRequest.mk "alice@x.com" "1234" in
  (exists u,
      User.read_by_email [Sample.logged_in] "alice@x.com" = Some u /\
      User.hashed_otp u = None /\
      User.otp_created_at u = None /\
      User.last_login_at u = Some 1100) /\
  (forall now2 otp2,
      @get_token Sample.production Sample.crypt now2
        (CreateUserTokenRequest.mk "alice@x.com" otp2) [Sample.logged_in]
      = (Raise (HTTPException 400 "User has not requested OTP yet"), [Sample.logged_in])).
Proof.
  cbv zeta.
  apply (login_consumes_otp Sample.production Sample.crypt 1100
           (CreateUserTokenRequest.mk "alice@x.com" "1234")
           [Sample.pending] [Sample.logged_in] "alice"
           (AuthJWT.mk AuthJWT.access "7c9e6679" 2900)
           (AuthJWT.mk AuthJWT.refresh "7c9e6679" 87500) true).
  - unfold primary_key. cbn. constructor; [intros [] | constructor].
  - reflexivity.
Defined.

(** ** Refresh *)

(** An unexpired token of the access kind is answered by the last case of
    the handler. *)
Lemma refresh_access_token_access_kind (settings : Settings) (str : Exception -> string)
    (now : Z) (tok : AuthJWT.token) (s : Session) :
  AuthJWT.type tok = AuthJWT.access ->
  now < AuthJWT.exp tok ->
  refresh_access_token settings str now (AuthJWT.bearer tok) s =
    (let e := AuthJWTException RefreshTokenRequired "Only refresh tokens are allowed" in
     Raise (HTTPException 500
              (if (str e =? "")%string then "Internal Server Error" else str e)), s).
Proof.
  intros Hty Hexp. unfold_refresh.
  destruct (AuthJWT.exp tok <=? now) eqn:E; [apply Z.leb_le in E; lia|].
  rewrite Hty. reflexivity.
Qed.

(** No token of the access kind is ever answered with a new access token. *)
Lemma refresh_access_token_access_kind_raises (settings : Settings)
    (str : Exception -> string) (now : Z) (tok : AuthJWT.token) (s : Session) :
  AuthJWT.type tok = AuthJWT.access ->
  exists status_code detail,
    refresh_access_token settings str now (AuthJWT.bearer tok) s =
      (Raise (HTTPException status_code detail), s).
Proof.
  intros Hty. unfold_refresh.
  destruct (AuthJWT.exp tok <=? now); [do 2 eexists; reflexivity|].
  rewrite Hty. do 2 eexists. reflexivity.
Qed.

(** C6.  The code departs from the claim: an unexpired access token
    presented to the refresh route is refused by the token service as a
    token of the wrong kind, and no access token is issued, but the route
    has no case for that exception and answers HTTP 500 "Internal Server
    Error", not an HTTP 401. *)
Theorem refresh_with_access_token_is_500 :
  refresh_access_token Sample.production Sample.no_str 2000
    (AuthJWT.bearer Sample.access_token) [Sample.logged_in]
  = (Raise (HTTPException 500 "Internal Server Error"), [Sample.logged_in]).
Proof. reflexivity. Qed.

(** C9.  A refresh token that has not expired, bound to the id of a row
    of the table, is answered with a new access token for that id,
    whatever [last_login_at] and [is_active] of the row are: the route
    reads neither.  Ids are [uuid4] strings, hence not empty. *)
Theorem refresh_ignores_session_state (settings : Settings) (str : Exception -> string)
    (now : Z) (tok : AuthJWT.token) (s : Session) (u : User.t) :
  AuthJWT.type tok = AuthJWT.refresh ->
  now < AuthJWT.exp tok ->
  User.read s (AuthJWT.sub tok) = Some u ->
  User.id u <> "" ->
  User.last_login_at u = None \/ User.is_active u = false ->
  refresh_access_token settings str now (AuthJWT.bearer tok) s =
    (Return (JSONResponse 200
               [("access_token",
                 JTok (AuthJWT.create_access_token now (User.id u)
                         (timedelta_minutes (ACCESS_TOKEN_EXPIRES_IN settings))))]), s).
Proof.
  intros Hty Hexp Hr Hne _.
  pose proof (read_some _ _ _ Hr) as [_ Hid].
  unfold_refresh.
  destruct (AuthJWT.exp tok <=? now) eqn:E; [apply Z.leb_le in E; lia|].
  rewrite Hty. cbn.
  destruct (AuthJWT.sub tok =? "")%string eqn:Hs.
  - apply String.eqb_eq in Hs. congruence.
  - cbn. rewrite Hr. reflexivity.
Qed.

Lemma refresh_ignores_session_state_witness :
  refresh_access_token Sample.production Sample.no_str 2000
    (AuthJWT.bearer Sample.refresh_token) [Sample.deleted_logged_out]
  = (Return (JSONResponse 200
               [("access_token", JTok (AuthJWT.mk AuthJWT.access "7c9e6679" 3800))]),
     [Sample.deleted_logged_out]).
Proof.
  apply (refresh_ignores_session_state Sample.production Sample.no_str 2000
           Sample.refresh_token [Sample.deleted_logged_out] Sample.deleted_logged_out).
  - reflexivity.
  - cbn. lia.
  - reflexivity.
  - discriminate.
  - left. reflexivity.
Defined.

(** ** Round trip of an access token *)

(** C10.  An access token issued for a subject, verified as an access
    token before its expiry, is accepted and yields that subject; and the
    guard, given that token, returns that id when the row of that id is
    active and logged in. *)
Theorem access_token_round_trip (settings : Settings) (now now' : Z) (_id : string) :
  now' < now + timedelta_minutes (ACCESS_TOKEN_EXPIRES_IN settings) ->
  let access_token :=
    AuthJWT.create_access_token now _id
      (timedelta_minutes (ACCESS_TOKEN_EXPIRES_IN settings)) in
  AuthJWT.jwt_required now' (AuthJWT.bearer access_token) = Return tt /\
  AuthJWT.get_jwt_subject (AuthJWT.bearer access_token) = Some _id /\
  (forall s u,
      User.read_for_auth s _id = Some u ->
      User.is_active u = true ->
      User.last_login_at u <> None ->
      protected_route now' (AuthJWT.bearer access_token) s = (Return _id, s)).
Proof.
  intros Hexp access_token.
  split; [|split].
  - unfold AuthJWT.jwt_required, AuthJWT.verify_jwt_in_request, access_token,
      AuthJWT.create_access_token.
    cbn [AuthJWT.exp AuthJWT.type AuthJWT.token_type_eqb].
    destruct (_ <=? now') eqn:E; [|reflexivity].
    apply Z.leb_le in E. lia.
  - reflexivity.
  - intros s u Hr Ha Hl.
    rewrite protected_route_bearer; [|exact Hexp|reflexivity].
    cbn. rewrite Hr, Ha. cbn.
    pose proof (find_some_eqb _ _ _ _ _ Hr) as [_ Hid].
    destruct (User.last_login_at u); [now rewrite Hid | contradiction].
Qed.

Lemma access_token_round_trip_witness :
  let access_token := AuthJWT.create_access_token 1100 "7c9e6679" 1800 in
  AuthJWT.jwt_required 2899 (AuthJWT.bearer access_token) = Return tt /\
  AuthJWT.get_jwt_subject (AuthJWT.bearer access_token) = Some "7c9e6679" /\
  (forall s u,
      User.read_for_auth s "7c9e6679" = Some u ->
      User.is_active u = true ->
      User.last_login_at u <> None ->
      protected_route 2899 (AuthJWT.bearer access_token) s = (Return "7c9e6679", s)).
Proof.
  apply (access_token_round_trip Sample.production 1100 2899 "7c9e6679").
  cbn. lia.
Defined.

(** ** OTP issuance *)




(** * Further properties of the routes *)

(** ** The guard (app/services/oauth2.py) *)

(** X1.  Whatever token is presented and whatever the table holds, the
    guard leaves the table as it is, and it either returns a user id or
    raises an HTTP 401: no other status leaves it. *)
Theorem protected_route_reads_only (now : Z) (authorize : AuthJWT.t) (s : Session) :
  snd (protected_route now authorize s) = s /\
  ((exists uid, fst (protected_route now authorize s) = Return uid) \/
   (exists detail, fst (protected_route now authorize s) = Raise (HTTPException 401 detail))).
Proof.
  destruct (protected_route_rejects_401 now authorize s) as [[uid H]|[d H]];
    rewrite H; cbn; split; try reflexivity; [left | right]; eexists; reflexivity.
Qed.

(** X2.  When the guard returns an id, the token presented is an access
    token that has not expired, its subject is that id, and the row of
    that id is active and logged in. *)
Theorem protected_route_sound (now : Z) (authorize : AuthJWT.t) (s s' : Session)
    (uid : string) :
  protected_route now authorize s = (Return uid, s') ->
  exists tok u,
    authorize = AuthJWT.bearer tok /\
    AuthJWT.type tok = AuthJWT.access /\ now < AuthJWT.exp tok /\
    AuthJWT.sub tok = uid /\
    User.read s uid = Some u /\ User.id u = uid /\
    User.is_active u = true /\ User.last_login_at u <> None.
Proof.
  intros H.
  destruct (protected_route_return _ _ _ _ _ H)
    as (tok & u & -> & Hexp & Hty & Hr & Ha & Hl & -> & Hid & _).
  exists tok, u. rewrite Hid. repeat split; try assumption; congruence.
Qed.

Lemma protected_route_sound_witness :
  exists tok u,
    AuthJWT.bearer Sample.access_token = AuthJWT.bearer tok /\
    AuthJWT.type tok = AuthJWT.access /\ 2000 < AuthJWT.exp tok /\
    AuthJWT.sub tok = "7c9e6679" /\
    User.read [Sample.logged_in] "7c9e6679" = Some u /\ User.id u = "7c9e6679" /\
    User.is_active u = true /\ User.last_login_at u <> None.
Proof.
  apply (protected_route_sound 2000 (AuthJWT.bearer Sample.access_token)
           [Sample.logged_in] [Sample.logged_in] "7c9e6679").
  reflexivity.
Defined.



(** ** Login (app/api/v1/auth/routes.py, [get_token]) *)

(** X4.  A login that is rejected leaves the table as it was: when
    [get_token] raises [NotFoundException] (no row for the email) or an
    HTTP 400 (no OTP requested, incorrect OTP, OTP expired), nothing was
    written, for these are raised before the commit.  The 500 "Internal
    Server Error" of the source, raised when the creation of a token
    fails, comes after the commit; the theorem does not speak of it. *)
Theorem get_token_rejection_keeps_store (settings : Settings) (txt_context : CryptContext)
    (now : Z) (payload : CreateUserTokenRequest.t) (s s' : Session) (e : Exception) :
  get_token settings now payload s = (Raise e, s') ->
  (exists detail, e = HTTPException 400 detail)
  \/ (exists detail, e = NotFoundException detail) ->
  s' = s.
Proof.
  intros H _. revert H.
  unfold get_token, bind at 1, ReadUserForToken.execute.
  destruct (User.read_by_email s (CreateUserTokenRequest.email payload)) as [u|] eqn:Hr;
    [|intros H; injection H; auto].
  cbn.
  destruct (DEBUG_MODE settings && already_logged_in settings (User.last_login_at u) now);
    [discriminate|].
  destruct (User.hashed_otp u) as [h|]; [|intros H; injection H; auto].
  destruct (verify_hashed_text (CreateUserTokenRequest.otp payload) h); cbn.
  - destruct (read_in s u) as [u' [Hu' Hid]]; [now apply read_by_email_some in Hr|].
    unfold bind, try_except.
    rewrite (update_for_token_execute s u'); [|exact Hu'].
    discriminate.
  - destruct (User.otp_created_at u); [|intros H; injection H; auto].
    destruct (_ <? _); intros H; injection H; auto.
Qed.

Lemma get_token_rejection_keeps_store_witness :
  @get_token Sample.production Sample.crypt 1100
    (CreateUserTokenRequest.mk "alice@x.com" "0000") [Sample.pending]
  = (Raise (HTTPException 400 "Incorrect OTP"), [Sample.pending]) /\
  [Sample.pending] = [Sample.pending].
Proof.
  split; [reflexivity|].
  apply (get_token_rejection_keeps_store Sample.production Sample.crypt 1100
           (CreateUserTokenRequest.mk "alice@x.com" "0000") [Sample.pending] [Sample.pending]
           (HTTPException 400 "Incorrect OTP")).
  - reflexivity.
  - left. eexists. reflexivity.
Defined.

(** X5.  A code that does not match the stored hash never logs in: up to
    and including the second [otp_created_at + OTP_EXPIRED_TIME] the answer
    is 400 "Incorrect OTP", never "OTP expired"; after it the answer is 400
    "OTP expired".  The table is unchanged in both cases. *)
Theorem get_token_wrong_code (settings : Settings) (txt_context : CryptContext)
    (now : Z) (payload : CreateUserTokenRequest.t) (s : Session) (u : User.t)
    (h : string) (created : Z) :
  User.read_by_email s (CreateUserTokenRequest.email payload) = Some u ->
  DEBUG_MODE settings && already_logged_in settings (User.last_login_at u) now = false ->
  User.hashed_otp u = Some h ->
  User.otp_created_at u = Some created ->
  verify_hashed_text (CreateUserTokenRequest.otp payload) h = false ->
  (now <= created + OTP_EXPIRED_TIME settings ->
   get_token settings now payload s = (Raise (HTTPException 400 "Incorrect OTP"), s)) /\
  (created + OTP_EXPIRED_TIME settings < now ->
   get_token settings now payload s = (Raise (HTTPException 400 "OTP expired"), s)).
Proof.
  intros Hr Hd Hh Hc Hv.
  rewrite (get_token_wrong_otp settings now payload s u h created Hr Hd Hh Hc Hv).
  split; intros Hcmp.
  - destruct (_ <? _) eqn:E; [apply Z.ltb_lt in E; lia | reflexivity].
  - destruct (_ <? _) eqn:E; [reflexivity | apply Z.ltb_ge in E; lia].
Qed.

Lemma get_token_wrong_code_witness :
  let wrong := CreateUserTokenRequest.mk "alice@x.com" "9999" in
  @get_token Sample.production Sample.crypt 1300 wrong [Sample.pending]
  = (Raise (HTTPException 400 "Incorrect OTP"), [Sample.pending]) /\
  @get_token Sample.production Sample.crypt 1301 wrong [Sample.pending]
  = (Raise (HTTPException 400 "OTP expired"), [Sample.pending]).
Proof.
  cbv zeta. split.
  - apply (get_token_wrong_code Sample.production Sample.crypt 1300
             (CreateUserTokenRequest.mk "alice@x.com" "9999") [Sample.pending]
             Sample.pending "$2b$1234" 1000); try reflexivity; cbn; lia.
  - apply (get_token_wrong_code Sample.production Sample.crypt 1301
             (CreateUserTokenRequest.mk "alice@x.com" "9999") [Sample.pending]
             Sample.pending "$2b$1234" 1000); try reflexivity; cbn; lia.
Defined.

(** X6.  A login for an email no row carries raises [NotFoundException]
    "User not found" before the code is looked at, in either mode, and
    writes nothing. *)
Theorem get_token_unknown_email (settings : Settings) (txt_context : CryptContext)
    (now : Z) (payload : CreateUserTokenRequest.t) (s : Session) :
  User.read_by_email s (CreateUserTokenRequest.email payload) = None ->
  get_token settings now payload s = (Raise (NotFoundException "User not found"), s).
Proof.
  intros Hr. unfold get_token, bind, ReadUserForToken.execute. now rewrite Hr.
Qed.

Lemma get_token_unknown_email_witness :
  @get_token Sample.debug Sample.crypt 1100
    (CreateUserTokenRequest.mk "bob@x.com" "1234") [Sample.pending]
  = (Raise (NotFoundException "User not found"), [Sample.pending]).
Proof.
  apply (get_token_unknown_email Sample.debug Sample.crypt 1100
           (CreateUserTokenRequest.mk "bob@x.com" "1234") [Sample.pending]).
  reflexivity.
Defined.

(** The table after a login of the row [u]. *)
Lemma read_after_login (s : Session) (e : string) (u : User.t) (now : Z) :
  primary_key s ->
  User.read_by_email s e = Some u ->
  User.read (User.commit_row (User.id u) (User.assign_for_token None None (Some now)) s)
    (User.id u)
  = Some (User.assign_for_token None None (Some now) u).
Proof.
  intros Hpk Hr.
  rewrite read_commit_row by (intros; apply assign_for_token_id).
  now rewrite (read_by_email_read s e u Hpk Hr).
Qed.

(** X7.  Login composes with the guard: after a login that answered with
    tokens, the guard given the access token of the answer returns the id
    of the user, at every second before [now + ACCESS_TOKEN_EXPIRES_IN]
    minutes, provided the row is active. *)
Theorem login_then_authenticate (settings : Settings) (txt_context : CryptContext)
    (now now2 : Z) (payload : CreateUserTokenRequest.t) (s s' : Session) (u : User.t)
    (name : string) (at_ rt : AuthJWT.token) (new : bool) :
  primary_key s ->
  User.read_by_email s (CreateUserTokenRequest.email payload) = Some u ->
  User.is_active u = true ->
  get_token settings now payload s = (Return (CreateUserTokenResponse name at_ rt new), s') ->
  now2 < now + timedelta_minutes (ACCESS_TOKEN_EXPIRES_IN settings) ->
  protected_route now2 (AuthJWT.bearer at_) s' = (Return (User.id u), s').
Proof.
  intros Hpk Hr Ha H Hexp.
  destruct (get_token_response_inv settings _ _ _ _ _ _ _ _ H)
    as (u0 & h & Hr0 & Hdbg & Hh & Hv).
  rewrite Hr in Hr0. injection Hr0 as <-.
  rewrite (get_token_matching_otp settings now payload s u h Hr Hdbg Hh Hv) in H.
  unfold token_response in H.
  assert (Hat : at_ = AuthJWT.create_access_token now (User.id u)
                        (timedelta_minutes (ACCESS_TOKEN_EXPIRES_IN settings)))
    by congruence.
  assert (Hs : s' = User.commit_row (User.id u)
                      (User.assign_for_token None None (Some now)) s) by congruence.
  subst at_ s'. clear H.
  rewrite protected_route_bearer; [|exact Hexp|reflexivity].
  change (User.read_for_auth ?t ?i) with (User.read t i).
  cbn [AuthJWT.sub AuthJWT.create_access_token].
  rewrite (read_after_login s _ u now Hpk Hr). cbn. now rewrite Ha.
Qed.

Lemma login_then_authenticate_witness :
  protected_route 2899 (AuthJWT.bearer (AuthJWT.mk AuthJWT.access "7c9e6679" 2900))
    [Sample.logged_in]
  = (Return "7c9e6679", [Sample.logged_in]).
Proof.
  apply (login_then_authenticate Sample.production Sample.crypt 1100 2899
           (CreateUserTokenRequest.mk "alice@x.com" "1234")
           [Sample.pending] [Sample.logged_in] Sample.pending "alice"
           (AuthJWT.mk AuthJWT.access "7c9e6679" 2900)
           (AuthJWT.mk AuthJWT.refresh "7c9e6679" 87500) true).
  - unfold primary_key. cbn. constructor; [intros [] | constructor].
  - reflexivity.
  - reflexivity.
  - reflexivity.
  - cbn. lia.
Defined.

(** ** Refresh (app/api/v1/auth/routes.py, [refresh_access_token]) *)

(** A token that does not decode, at the refresh route. *)
Lemma refresh_access_token_undecodable (settings : Settings) (str : Exception -> string)
    (now : Z) (m : string) (s : Session) :
  refresh_access_token settings str now (AuthJWT.undecodable m) s
  = (Raise (HTTPException 401
              (if (m =? "Signature has expired")%string
               then "Refresh token has expired, login again"
               else "Invalid refresh token")), s).
Proof.
  unfold_refresh. cbn.
  repeat (destruct m as [|[[] [] [] [] [] [] [] []] m]; try reflexivity).
Qed.

(** A token whose header does not parse, at the refresh route: the
    handler has no case for [InvalidHeaderError]. *)
Lemma refresh_access_token_invalid_header (settings : Settings) (str : Exception -> string)
    (now : Z) (m : string) (s : Session) :
  refresh_access_token settings str now (AuthJWT.invalid_header m) s
  = (Raise (if (m =? "Signature has expired")%string
            then HTTPException 401 "Refresh token has expired, login again"
            else HTTPException 500
                   (if (str (AuthJWTException InvalidHeaderError m) =? "")%string
                    then "Internal Server Error"
                    else str (AuthJWTException InvalidHeaderError m))), s).
Proof.
  unfold_refresh. cbn.
  repeat (destruct m as [|[[] [] [] [] [] [] [] []] m]; try reflexivity).
Qed.

(** The refresh route writes nothing. *)
Lemma refresh_access_token_store (settings : Settings) (str : Exception -> string)
    (now : Z) (authorize : AuthJWT.t) (s : Session) :
  snd (refresh_access_token settings str now authorize s) = s.
Proof.
  destruct authorize as [|m|m|tok].
  - reflexivity.
  - now rewrite refresh_access_token_undecodable.
  - rewrite refresh_access_token_invalid_header.
    destruct (m =? "Signature has expired")%string; reflexivity.
  - unfold_refresh. cbn.
    destruct (AuthJWT.exp tok <=? now); [reflexivity|].
    destruct (AuthJWT.type tok); cbn; [reflexivity|].
    destruct (AuthJWT.sub tok =? "")%string; cbn; [reflexivity|].
    destruct (User.read s (AuthJWT.sub tok)); reflexivity.
Qed.

(** A refresh token in date whose subject has a row. *)
Lemma refresh_access_token_issues (settings : Settings) (str : Exception -> string)
    (now : Z) (tok : AuthJWT.token) (s : Session) (u : User.t) :
  AuthJWT.type tok = AuthJWT.refresh ->
  now < AuthJWT.exp tok ->
  User.read s (AuthJWT.sub tok) = Some u ->
  AuthJWT.sub tok <> "" ->
  refresh_access_token settings str now (AuthJWT.bearer tok) s =
    (Return (JSONResponse 200
               [("access_token",
                 JTok (AuthJWT.create_access_token now (AuthJWT.sub tok)
                         (timedelta_minutes (ACCESS_TOKEN_EXPIRES_IN settings))))]), s).
Proof.
  intros Hty Hexp Hr Hne.
  pose proof (read_some _ _ _ Hr) as [_ Hid].
  unfold_refresh.
  destruct (AuthJWT.exp tok <=? now) eqn:E; [apply Z.leb_le in E; lia|].
  rewrite Hty. cbn.
  destruct (AuthJWT.sub tok =? "")%string eqn:Hs.
  - apply String.eqb_eq in Hs. contradiction.
  - cbn. rewrite Hr. cbn. now rewrite Hid.
Qed.

(** X8.  Login composes with refresh: after a login that answered with
    tokens, the refresh route given the refresh token of the answer, at
    every second before [now + REFRESH_TOKEN_EXPIRES_IN] minutes, answers
    with an access token for the same user that expires
    [ACCESS_TOKEN_EXPIRES_IN] minutes after the refresh, and writes
    nothing. *)
Theorem login_then_refresh (settings : Settings) (txt_context : CryptContext)
    (str : Exception -> string)
    (now now2 : Z) (payload : CreateUserTokenRequest.t) (s s' : Session) (u : User.t)
    (name : string) (at_ rt : AuthJWT.token) (new : bool) :
  User.read_by_email s (CreateUserTokenRequest.email payload) = Some u ->
  User.id u <> "" ->
  get_token settings now payload s = (Return (CreateUserTokenResponse name at_ rt new), s') ->
  now2 < now + timedelta_minutes (REFRESH_TOKEN_EXPIRES_IN settings) ->
  refresh_access_token settings str now2 (AuthJWT.bearer rt) s' =
    (Return (JSONResponse 200
               [("access_token",
                 JTok (AuthJWT.mk AuthJWT.access (User.id u)
                         (now2 + 60 * ACCESS_TOKEN_EXPIRES_IN settings)))]), s').
Proof.
  intros Hr Hne H Hexp.
  destruct (get_token_response_inv settings _ _ _ _ _ _ _ _ H)
    as (u0 & h & Hr0 & Hdbg & Hh & Hv).
  rewrite Hr in Hr0. injection Hr0 as <-.
  rewrite (get_token_matching_otp settings now payload s u h Hr Hdbg Hh Hv) in H.
  unfold token_response in H.
  assert (Hrt : rt = AuthJWT.create_refresh_token now (User.id u)
                       (timedelta_minutes (REFRESH_TOKEN_EXPIRES_IN settings)))
    by congruence.
  assert (Hs : s' = User.commit_row (User.id u)
                      (User.assign_for_token None None (Some now)) s) by congruence.
  subst rt s'. clear H.
  destruct (read_in s u) as [u' [Hu' Hid]]; [now apply read_by_email_some in Hr|].
  rewrite (refresh_access_token_issues settings str now2 _ _
             (User.assign_for_token None None (Some now) u')).
  - reflexivity.
  - reflexivity.
  - exact Hexp.
  - cbn [AuthJWT.sub AuthJWT.create_refresh_token].
    rewrite read_commit_row by (intros; apply assign_for_token_id).
    now rewrite Hu'.
  - exact Hne.
Qed.

Lemma login_then_refresh_witness :
  refresh_access_token Sample.production Sample.no_str 50000
    (AuthJWT.bearer (AuthJWT.mk AuthJWT.refresh "7c9e6679" 87500)) [Sample.logged_in]
  = (Return (JSONResponse 200
               [("access_token", JTok (AuthJWT.mk AuthJWT.access "7c9e6679" 51800))]),
     [Sample.logged_in]).
Proof.
  apply (login_then_refresh Sample.production Sample.crypt Sample.no_str 1100 50000
           (CreateUserTokenRequest.mk "alice@x.com" "1234")
           [Sample.pending] [Sample.logged_in] Sample.pending "alice"
           (AuthJWT.mk AuthJWT.access "7c9e6679" 2900)
           (AuthJWT.mk AuthJWT.refresh "7c9e6679" 87500) true).
  - reflexivity.
  - discriminate.
  - reflexivity.
  - cbn. lia.
Defined.

(** X9.  The refresh route never writes to the table, whatever it is
    given and whatever it answers. *)
Theorem refresh_access_token_reads_only (settings : Settings) (str : Exception -> string)
    (now : Z) (authorize : AuthJWT.t) (s : Session) :
  snd (refresh_access_token settings str now authorize s) = s.
Proof. apply refresh_access_token_store. Qed.



(** X11.  Refresh does not bring a session back: after a logout that
    returned, a refresh token of the same user that is still in date is
    answered with a new access token, and the guard rejects that new token
    with 401 "Log in first to access this route". *)
Theorem refresh_after_logout (settings : Settings) (str : Exception -> string)
    (now1 now2 now3 : Z) (tok rt : AuthJWT.token) (s s1 : Session) (r : Response) :
  logout_user now1 (AuthJWT.bearer tok) s = (Return r, s1) ->
  AuthJWT.type rt = AuthJWT.refresh ->
  AuthJWT.sub rt = AuthJWT.sub tok ->
  AuthJWT.sub tok <> "" ->
  now2 < AuthJWT.exp rt ->
  now3 < now2 + timedelta_minutes (ACCESS_TOKEN_EXPIRES_IN settings) ->
  exists access_token,
    refresh_access_token settings str now2 (AuthJWT.bearer rt) s1
    = (Return (JSONResponse 200 [("access_token", JTok access_token)]), s1) /\
    protected_route now3 (AuthJWT.bearer access_token) s1
    = (Raise (HTTPException 401 "Log in first to access this route"), s1).
Proof.
  intros H Hty Hsub Hne Hexp2 Hexp3.
  destruct (logout_user_return _ _ _ _ _ H)
    as (tok' & u & Heq & Hr & Hid & Ha & _ & ->).
  injection Heq as <-.
  assert (Hr1 : User.read (User.commit_row (User.id u)
                             (User.assign_for_token None None None) s) (AuthJWT.sub tok)
                = Some (User.assign_for_token None None None u)).
  { rewrite <- Hid. rewrite read_commit_row by (intros; apply assign_for_token_id).
    now rewrite Hid, Hr. }
  eexists. split.
  - apply (refresh_access_token_issues settings str now2 rt _
             (User.assign_for_token None None None u)); try assumption.
    + now rewrite Hsub.
    + now rewrite Hsub.
  - rewrite protected_route_bearer; [|exact Hexp3|reflexivity].
    change (User.read_for_auth ?t ?i) with (User.read t i).
    cbn [AuthJWT.sub AuthJWT.create_access_token].
    rewrite Hsub, Hr1. cbn. now rewrite Ha.
Qed.

Lemma refresh_after_logout_witness :
  exists access_token,
    refresh_access_token Sample.production Sample.no_str 2100
      (AuthJWT.bearer Sample.refresh_token) [Sample.logged_out]
    = (Return (JSONResponse 200 [("access_token", JTok access_token)]),
       [Sample.logged_out]) /\
    protected_route 2200 (AuthJWT.bearer access_token) [Sample.logged_out]
    = (Raise (HTTPException 401 "Log in first to access this route"), [Sample.logged_out]).
Proof.
  apply (refresh_after_logout Sample.production Sample.no_str 2000 2100 2200
           Sample.access_token Sample.refresh_token [Sample.logged_in] [Sample.logged_out]
           (JSONResponse 200 [("message", JStr "Successfully logged out")])).
  - reflexivity.
  - reflexivity.
  - reflexivity.
  - discriminate.
  - cbn. lia.
  - cbn. lia.
Defined.

(** ** What the token routes leave alone *)

Lemma commit_row_identity_columns (s : Session) (_id : string) (o : option string)
    (c l : option Z) :
  map identity_columns (User.commit_row _id (User.assign_for_token o c l) s)
  = map identity_columns s.
Proof.
  induction s as [|h rest IH]; cbn; [reflexivity|].
  destruct (User.id h =? _id)%string; cbn; [reflexivity | now rewrite IH].
Qed.

(** Reading another id after a row was committed. *)
Lemma read_commit_row_other (s : Session) (i j : string) (f : User.t -> User.t) :
  (forall u, User.id (f u) = User.id u) ->
  i <> j ->
  User.read (User.commit_row i f s) j = User.read s j.
Proof.
  intros Hf Hij. unfold User.read.
  induction s as [|h rest IH]; cbn; [reflexivity|].
  destruct (User.id h =? i)%string eqn:Hi; cbn.
  - rewrite Hf. apply String.eqb_eq in Hi.
    destruct (User.id h =? j)%string eqn:Hj; [|reflexivity].
    apply String.eqb_eq in Hj. congruence.
  - destruct (User.id h =? j)%string; [reflexivity | exact IH].
Qed.

(** The table after [get_token]: as it was, or one row logged in. *)
Lemma get_token_store (settings : Settings) (txt_context : CryptContext)
    (now : Z) (payload : CreateUserTokenRequest.t) (s : Session) :
  snd (get_token settings now payload s) = s \/
  exists _id,
    snd (get_token settings now payload s)
    = User.commit_row _id (User.assign_for_token None None (Some now)) s.
Proof.
  enough (H : exists r s', get_token settings now payload s = (r, s') /\
                (s' = s \/ exists _id,
                   s' = User.commit_row _id (User.assign_for_token None None (Some now)) s)).
  { destruct H as (r & s' & -> & H). exact H. }
  unfold get_token, bind at 1, ReadUserForToken.execute.
  destruct (User.read_by_email s (CreateUserTokenRequest.email payload)) as [u|] eqn:Hr;
    [|eexists _, _; split; [reflexivity | left; reflexivity]].
  cbn.
  destruct (DEBUG_MODE settings && already_logged_in settings (User.last_login_at u) now);
    [eexists _, _; split; [reflexivity | left; reflexivity]|].
  destruct (User.hashed_otp u) as [h|];
    [|eexists _, _; split; [reflexivity | left; reflexivity]].
  destruct (verify_hashed_text (CreateUserTokenRequest.otp payload) h); cbn.
  - destruct (read_in s u) as [u' [Hu' Hid]]; [now apply read_by_email_some in Hr|].
    unfold bind, try_except.
    rewrite (update_for_token_execute s u'); [|exact Hu'].
    eexists _, _. split; [reflexivity|]. right. eexists. reflexivity.
  - destruct (User.otp_created_at u);
      [|eexists _, _; split; [reflexivity | left; reflexivity]].
    destruct (_ <? _); eexists _, _; (split; [reflexivity | left; reflexivity]).
Qed.

(** The table after [logout_user]: as it was, or one row logged out. *)
Lemma logout_user_store (now : Z) (authorize : AuthJWT.t) (s : Session) :
  snd (logout_user now authorize s) = s \/
  exists _id,
    snd (logout_user now authorize s)
    = User.commit_row _id (User.assign_for_token None None None) s.
Proof.
  destruct (protected_route_rejects_401 now authorize s) as [[uid Hp]|[d Hp]].
  - right.
    destruct (protected_route_return _ _ _ _ _ Hp)
      as (tok & u & -> & Hexp & Hty & Hr & Ha & Hl & _ & _ & _).
    rewrite (logout_user_accepted now tok s u Hexp Hty Hr Ha Hl).
    eexists. reflexivity.
  - left. now rewrite (logout_user_rejected _ _ _ _ Hp).
Qed.

(** X12.  Login, refresh and logout never add or remove a row and never
    change the id, username, email, role, [is_active] flag or age of any
    row, whatever they are given and whatever they answer. *)
Theorem token_routes_keep_identity_columns (settings : Settings)
    (txt_context : CryptContext) (str : Exception -> string)
    (now : Z) (payload : CreateUserTokenRequest.t) (authorize : AuthJWT.t) (s : Session) :
  map identity_columns (snd (get_token settings now payload s)) = map identity_columns s /\
  map identity_columns (snd (refresh_access_token settings str now authorize s))
  = map identity_columns s /\
  map identity_columns (snd (logout_user now authorize s)) = map identity_columns s.
Proof.
  split; [|split].
  - destruct (get_token_store settings txt_context now payload s) as [->|[i ->]];
      [reflexivity | apply commit_row_identity_columns].
  - now rewrite refresh_access_token_store.
  - destruct (logout_user_store now authorize s) as [->|[i ->]];
      [reflexivity | apply commit_row_identity_columns].
Qed.

(** X13.  A logout that returns clears the session and any OTP of the
    caller: the row of the returned subject has [last_login_at],
    [hashed_otp] and [otp_created_at] null afterwards, and a lookup of any
    other id finds what it found before. *)
Theorem logout_user_effect (now : Z) (tok : AuthJWT.token) (s s1 : Session) (r : Response) :
  logout_user now (AuthJWT.bearer tok) s = (Return r, s1) ->
  (exists u,
      User.read s1 (AuthJWT.sub tok) = Some u /\
      User.last_login_at u = None /\
      User.hashed_otp u = None /\
      User.otp_created_at u = None) /\
  (forall other, other <> AuthJWT.sub tok -> User.read s1 other = User.read s other).
Proof.
  intros H.
  destruct (logout_user_return _ _ _ _ _ H) as (tok' & u & Heq & Hr & Hid & _ & _ & ->).
  injection Heq as <-.
  split.
  - exists (User.assign_for_token None None None u).
    rewrite <- Hid at 1.
    rewrite read_commit_row by (intros; apply assign_for_token_id).
    rewrite Hid, Hr. repeat split.
  - intros other Hother.
    apply read_commit_row_other; [intros; apply assign_for_token_id | congruence].
Qed.

Lemma logout_user_effect_witness :
  (exists u,
      User.read [Sample.logged_out] "7c9e6679" = Some u /\
      User.last_login_at u = None /\
      User.hashed_otp u = None /\
      User.otp_created_at u = None) /\
  (forall other, other <> "7c9e6679" ->
     User.read [Sample.logged_out] other = User.read [Sample.logged_in] other).
Proof.
  apply (logout_user_effect 2000 Sample.access_token [Sample.logged_in] [Sample.logged_out]
           (JSONResponse 200 [("message", JStr "Successfully logged out")])).
  reflexivity.
Defined.

(** ** Registration and the table *)

Lemma existsb_eqb_false (A : Type) (key : A -> string) (k : string) (l : list A) :
  existsb (fun x => (key x =? k)%string) l = false -> ~ In k (map key l).
Proof.
  intros H Hin. apply in_map_iff in Hin. destruct Hin as (x & Hk & Hx).
  assert (E : existsb (fun x => (key x =? k)%string) l = true).
  { apply existsb_exists. exists x. split; [assumption|]. now apply String.eqb_eq. }
  congruence.
Qed.

Lemma existsb_orb_false (A : Type) (p q : A -> bool) (l : list A) :
  existsb (fun x => p x || q x) l = false ->
  existsb p l = false /\ existsb q l = false.
Proof.
  induction l as [|h t IH]; cbn; [auto|].
  intros H. apply orb_false_elim in H. destruct H as [Hh Ht].
  apply orb_false_elim in Hh. destruct Hh as [Hp Hq].
  destruct (IH Ht) as [IHp IHq]. now rewrite Hp, Hq, IHp, IHq.
Qed.

Lemma create_return (s s' : Session) (e : string) (r : option Z) (uuid : string)
    (rnd : Z) (c : option string) (u : User.t) :
  User.create s e r uuid rnd c = (Return u, s') ->
  s' = (s ++ [u])%list /\
  User.id u = uuid /\ User.email u = e /\ User.role_id u = r /\
  User.hashed_otp u = None /\ User.otp_created_at u = None /\
  User.last_login_at u = None /\ User.is_active u = true /\ User.age u = None /\
  ~ In (User.id u) (map User.id s) /\
  ~ In (User.username u) (map User.username s) /\
  ~ In (User.email u) (map User.email s).
Proof.
  unfold User.create.
  set (username1 := if existsb _ s then _ else _).
  destruct (existsb _ s) eqn:E; [discriminate|].
  intros H. injection H as <- <-. cbn.
  apply existsb_orb_false in E. destruct E as [E He].
  apply existsb_orb_false in E. destruct E as [Hi Hu].
  repeat split; try reflexivity; now apply existsb_eqb_false.
Qed.

Lemma create_raise (s s' : Session) (e : string) (r : option Z) (uuid : string)
    (rnd : Z) (c : option string) (x : Exception) :
  User.create s e r uuid rnd c = (Raise x, s') -> s' = s.
Proof.
  unfold User.create.
  destruct (existsb _ s); intros H; [now injection H | discriminate].
Qed.

Lemma nodup_snoc (A : Type) (l : list A) (a : A) :
  NoDup l -> ~ In a l -> NoDup (l ++ [a]).
Proof.
  intros Hl Ha. induction l as [|h t IH]; cbn.
  - constructor; [intros [] | constructor].
  - inversion Hl as [|? ? Hh Ht]; subst.
    constructor.
    + intros Hin. apply in_app_or in Hin. destruct Hin as [Hin|[Heq|[]]].
      * contradiction.
      * subst. apply Ha. now left.
    + apply IH; [assumption|]. intros Hin. apply Ha. now right.
Qed.

Lemma read_by_email_snoc (s : Session) (e : string) (u : User.t) :
  User.read_by_email s e = None -> User.email u = e ->
  User.read_by_email (s ++ [u]) e = Some u.
Proof.
  unfold User.read_by_email. intros Hn He.
  induction s as [|h t IH]; cbn in *.
  - now rewrite He, String.eqb_refl.
  - destruct (User.email h =? e)%string; [discriminate | now apply IH].
Qed.

Lemma commit_row_snoc (s : Session) (u : User.t) (f : User.t -> User.t) :
  ~ In (User.id u) (map User.id s) ->
  User.commit_row (User.id u) f (s ++ [u]) = (s ++ [f u])%list.
Proof.
  intros Hn. induction s as [|h t IH]; cbn.
  - now rewrite String.eqb_refl.
  - destruct (User.id h =? User.id u)%string eqn:E.
    + exfalso. apply String.eqb_eq in E. apply Hn. left. exact E.
    + f_equal. apply IH. intros Hin. apply Hn. now right.
Qed.

(** The three ways [CreateUser.execute] ends. *)
Lemma create_user_execute_cases (e : string) (env : Env) (s : Session) :
  (exists u, User.read_by_email s e = Some u /\
             CreateUser.execute e (uuid4 env) (random_number env) (err_cause env) s
             = (Return (UserSchema.model_validate u), s)) \/
  (exists u, User.read_by_email s e = None /\
             User.create s e (Some 1) (uuid4 env) (random_number env) (err_cause env)
             = (Return u, (s ++ [u])%list) /\
             CreateUser.execute e (uuid4 env) (random_number env) (err_cause env) s
             = (Return (UserSchema.model_validate u), (s ++ [u])%list)) \/
  (exists x, User.read_by_email s e = None /\
             CreateUser.execute e (uuid4 env) (random_number env) (err_cause env) s
             = (Raise x, s)).
Proof.
  unfold CreateUser.execute.
  destruct (User.read_by_email s e) as [u|] eqn:Hr.
  - left. exists u. split; reflexivity.
  - destruct (User.create s e (Some 1) (uuid4 env) (random_number env) (err_cause env))
      as [[u|x] base] eqn:Hc.
    + right. left. exists u.
      pose proof (create_return _ _ _ _ _ _ _ _ Hc) as [-> _].
      repeat split.
    + right. right. exists x.
      pose proof (create_raise _ _ _ _ _ _ _ _ Hc) as ->. split; reflexivity.
Qed.

Section Issue.

Context (settings : Settings) {txt_context : CryptContext}.

(** The route, once [CreateUser.execute] has answered with the row [u] of
    the table [base]. *)
Lemma register_or_login_user_row (now : Z) (env : Env) (e : string) (s base : Session)
    (u : User.t) :
  CreateUser.execute e (uuid4 env) (random_number env) (err_cause env) s
  = (Return (UserSchema.model_validate u), base) ->
  In u base ->
  register_or_login_user settings now env e s =
    let issue :=
      if negb (DEBUG_MODE settings) && negb (mail_ok env)
      then (Raise (HTTPException 503 "Could not sent email."), base)
      else (Return (JSONResponse 201
                      (("detail", JStr "OTP sent to email")
                       :: (if DEBUG_MODE settings
                           then [("otp", JStr (generate_otp env))] else []))),
            User.commit_row (User.id u) (otp_stored now env) base) in
    if DEBUG_MODE settings
    then
      if already_logged_in settings (User.last_login_at u) now
      then (Return (JSONResponse 208 [("detail", JStr "You are logged in.")]), base)
      else
        match User.otp_created_at u with
        | Some created =>
            if created + OTP_EXPIRED_TIME settings <? now
            then issue
            else (Raise (HTTPException 400
                           ("Try again in "
                            ++ str_of_int (timedelta_seconds
                                             (created + OTP_EXPIRED_TIME settings - now))
                            ++ " seconds")), base)
        | None => issue
        end
    else issue.
Proof.
  intros Hc Hin.
  destruct (read_in base u Hin) as [u' [Hu' Hid]].
  assert (Hissue : forall dbg,
    try_except
      ((if negb dbg then lift (sent_otp_in_email (mail_ok env)) else ret tt) ;;;
       UpdateUserForToken.execute
         (UpdateUserAfterTokenRequest.mk (User.id u)
            (Some (hash_text (salt env) (generate_otp env))) (Some now) None))
      (fun e0 =>
         match e0 with
         | CouldNotSentEmailException detail =>
             raise (HTTPException (exc_status_code e0) detail)
         | _ => raise (HTTPException 503 "Could not sent email")
         end) base
    = if negb dbg && negb (mail_ok env)
      then (Raise (HTTPException 503 "Could not sent email."), base)
      else (Return tt, User.commit_row (User.id u) (otp_stored now env) base)).
  { intros dbg. unfold try_except, bind, lift, ret, sent_otp_in_email.
    destruct dbg, (mail_ok env); cbn;
      try (rewrite (update_for_token_execute base u'); [|exact Hu']; cbn;
           rewrite Hid; reflexivity).
    reflexivity. }
  unfold register_or_login_user, bind at 1. rewrite Hc.
  cbv beta iota zeta.
  cbn [UserSchema.model_validate UserSchema.last_login_at UserSchema.otp_created_at
       UserSchema.id].
  unfold timedelta_of_seconds.
  destruct (DEBUG_MODE settings) eqn:Hd.
  - pose proof (Hissue true) as Ht.
    destruct (already_logged_in settings (User.last_login_at u) now); [reflexivity|].
    destruct (User.otp_created_at u) as [created|].
    + destruct (created + OTP_EXPIRED_TIME settings <? now); [|reflexivity].
      unfold bind at 1. lazy beta iota delta [negb] in Ht |- *.
      rewrite Ht. reflexivity.
    + unfold bind at 1. lazy beta iota delta [negb] in Ht |- *.
      rewrite Ht. reflexivity.
  - pose proof (Hissue false) as Hf.
    unfold bind at 1. lazy beta iota delta [negb] in Hf |- *.
    rewrite Hf. cbn. destruct (mail_ok env); reflexivity.
Qed.

End Issue.

Lemma identity_columns_keys (s t : Session) :
  map identity_columns s = map identity_columns t ->
  map User.id s = map User.id t /\
  map User.username s = map User.username t /\
  map User.email s = map User.email t.
Proof.
  revert t. induction s as [|h r IH]; destruct t as [|h' r']; cbn; try discriminate;
    [auto|].
  unfold identity_columns at 1 3.
  intros H. injection H as Ha Hb Hc _ _ _ Hr. destruct (IH r' Hr) as (E1 & E2 & E3).
  rewrite E1, E2, E3, Ha, Hb, Hc. auto.
Qed.

Lemma unique_columns_identity (s t : Session) :
  map identity_columns s = map identity_columns t ->
  unique_columns s -> unique_columns t.
Proof.
  intros H (Hi & Hu & He).
  destruct (identity_columns_keys s t H) as (E1 & E2 & E3).
  unfold unique_columns. now rewrite <- E1, <- E2, <- E3.
Qed.

Lemma read_by_email_none_not_in (s : Session) (e : string) :
  User.read_by_email s e = None -> ~ In e (map User.email s).
Proof.
  unfold User.read_by_email. intros H Hin.
  apply in_map_iff in Hin. destruct Hin as (x & Hx & Hin).
  pose proof (find_none _ _ H x Hin) as Hf. cbn in Hf.
  rewrite Hx, String.eqb_refl in Hf. discriminate.
Qed.

(** The row [CreateUser.execute] answers with, and the table it leaves. *)
Lemma create_user_execute_row (e : string) (env : Env) (s base : Session)
    (us : UserSchema.t) :
  CreateUser.execute e (uuid4 env) (random_number env) (err_cause env) s
  = (Return us, base) ->
  exists u,
    us = UserSchema.model_validate u /\
    User.read_by_email base e = Some u /\ In u base /\
    (unique_columns s -> unique_columns base) /\
    (primary_key s -> primary_key base) /\
    ((base = s /\ User.read_by_email s e = Some u) \/
     (base = (s ++ [u])%list /\ User.read_by_email s e = None /\
      User.create s e (Some 1) (uuid4 env) (random_number env) (err_cause env)
      = (Return u, base))).
Proof.
  intros H.
  destruct (create_user_execute_cases e env s)
    as [(u & Hr & Hc)|[(u & Hr & Hcr & Hc)|(x & Hr & Hc)]];
    rewrite Hc in H; [| |discriminate]; injection H as <- <-; exists u.
  - split; [reflexivity|]. split; [assumption|].
    split; [now apply read_by_email_some in Hr|].
    split; [tauto|]. split; [tauto|]. left. split; [reflexivity | assumption].
  - pose proof (create_return _ _ _ _ _ _ _ _ Hcr)
      as (_ & Hid & He & _ & _ & _ & _ & _ & _ & Hni & Hnu & Hne).
    split; [reflexivity|]. split; [now apply read_by_email_snoc|].
    split; [apply in_or_app; right; now left|].
    split; [|split].
    + intros (Hi & Hu & Hem). unfold unique_columns.
      rewrite !map_app. cbn.
      split; [|split]; apply nodup_snoc; assumption.
    + unfold primary_key. intros Hi. rewrite map_app. cbn. now apply nodup_snoc.
    + right. split; [reflexivity|]. split; assumption.
Qed.

Lemma register_or_login_user_raise_create (settings : Settings) (txt_context : CryptContext)
    (now : Z) (env : Env) (e : string) (s : Session) (x : Exception) :
  CreateUser.execute e (uuid4 env) (random_number env) (err_cause env) s = (Raise x, s) ->
  register_or_login_user settings now env e s = (Raise x, s).
Proof.
  intros H. unfold register_or_login_user, bind at 1. now rewrite H.
Qed.

(** The table after the route: that of [CreateUser.execute], with at most
    the OTP of one row stored. *)
Lemma register_or_login_user_store (settings : Settings) (txt_context : CryptContext)
    (now : Z) (env : Env) (e : string) (s : Session) :
  exists base,
    snd (CreateUser.execute e (uuid4 env) (random_number env) (err_cause env) s) = base /\
    map identity_columns (snd (register_or_login_user settings now env e s))
    = map identity_columns base.
Proof.
  destruct (CreateUser.execute e (uuid4 env) (random_number env) (err_cause env) s)
    as [[us|x] base] eqn:Hc; exists base; split; try reflexivity.
  - destruct (create_user_execute_row e env s base us Hc)
      as (u & -> & _ & Hin & _ & _ & _).
    rewrite (register_or_login_user_row settings now env e s base u Hc Hin).
    cbv zeta.
    destruct (DEBUG_MODE settings); cbn [negb andb].
    + destruct (already_logged_in settings (User.last_login_at u) now); [reflexivity|].
      destruct (User.otp_created_at u) as [c|];
        [destruct (c + OTP_EXPIRED_TIME settings <? now); [|reflexivity]|];
        apply commit_row_identity_columns.
    + destruct (mail_ok env); cbn; [apply commit_row_identity_columns | reflexivity].
  - unfold register_or_login_user, bind at 1. rewrite Hc. reflexivity.
Qed.

(** An answer 201 means the OTP of the request was stored. *)
Lemma register_or_login_user_201 (settings : Settings) (txt_context : CryptContext)
    (now : Z) (env : Env) (e : string) (s s' : Session) (content : list (string * JSONValue)) :
  register_or_login_user settings now env e s = (Return (JSONResponse 201 content), s') ->
  exists base u,
    CreateUser.execute e (uuid4 env) (random_number env) (err_cause env) s
    = (Return (UserSchema.model_validate u), base) /\
    In u base /\
    s' = User.commit_row (User.id u) (otp_stored now env) base.
Proof.
  intros H.
  destruct (CreateUser.execute e (uuid4 env) (random_number env) (err_cause env) s)
    as [[us|x] base] eqn:Hc.
  - destruct (create_user_execute_row e env s base us Hc)
      as (u & -> & _ & Hin & _ & _ & _).
    exists base, u. split; [reflexivity|]. split; [assumption|].
    rewrite (register_or_login_user_row settings now env e s base u Hc Hin) in H.
    cbv zeta in H.
    destruct (DEBUG_MODE settings); cbn [negb andb] in H.
    + destruct (already_logged_in settings (User.last_login_at u) now); [discriminate|].
      destruct (User.otp_created_at u) as [c|];
        [destruct (c + OTP_EXPIRED_TIME settings <? now); [|discriminate]|];
        congruence.
    + destruct (mail_ok env); cbn in H; [congruence | discriminate].
  - unfold register_or_login_user, bind at 1 in H. rewrite Hc in H. discriminate.
Qed.

(** ** OTP issuance (app/api/v1/user/routes.py, [register_or_login_user]) *)

(** X14.  Issue and verify compose: when the request for an OTP is
    answered 201, the code that was generated, submitted for the same
    email before it expires, logs the user in, for an email that had a
    row as for one that had none.  The hashing context is assumed to
    verify a text against its own hash. *)
Theorem otp_request_then_login (settings : Settings) (txt_context : CryptContext)
    (now now2 : Z) (env : Env) (e : string) (s s' : Session)
    (content : list (string * JSONValue)) :
  verifies_own_hash txt_context ->
  primary_key s ->
  register_or_login_user settings now env e s = (Return (JSONResponse 201 content), s') ->
  now <= now2 <= now + OTP_EXPIRED_TIME settings ->
  exists u,
    User.read_by_email s' e = Some u /\
    get_token settings now2 (CreateUserTokenRequest.mk e (generate_otp env)) s'
    = (Return (token_response settings now2 u),
       User.commit_row (User.id u) (User.assign_for_token None None (Some now2)) s').
Proof.
  intros Hv Hpk H _.
  destruct (register_or_login_user_201 settings txt_context _ _ _ _ _ _ H)
    as (base & u & Hc & Hin & ->).
  destruct (create_user_execute_row e env s base _ Hc)
    as (u0 & Hu0 & Hr & _ & _ & Hpkb & _).
  assert (Hr' : User.read_by_email (User.commit_row (User.id u0) (otp_stored now env) base) e
                = Some (otp_stored now env u0)).
  { apply read_by_email_commit_row; [now apply Hpkb | | assumption].
    intros; apply assign_for_token_email. }
  assert (Hid : User.id u = User.id u0).
  { change (UserSchema.id (UserSchema.model_validate u)
            = UserSchema.id (UserSchema.model_validate u0)). now rewrite Hu0. }
  rewrite Hid. exists (otp_stored now env u0). split; [exact Hr'|].
  apply (get_token_matching_otp settings now2
           (CreateUserTokenRequest.mk e (generate_otp env)) _ _
           (hash_text (salt env) (generate_otp env))).
  - exact Hr'.
  - cbn. apply andb_false_r.
  - reflexivity.
  - apply Hv.
Qed.

Lemma sample_crypt_verifies_own_hash : verifies_own_hash Sample.crypt.
Proof.
  intros salt text. unfold verify_hashed_text, hash_text. cbn. apply String.eqb_refl.
Qed.

Lemma sample_primary_key (u : User.t) : primary_key [u].
Proof. unfold primary_key. cbn. constructor; [intros [] | constructor]. Qed.

Lemma otp_request_then_login_witness :
  exists u,
    User.read_by_email [Sample.row (Some "$2b$5678") None (Some 1400) true] "alice@x.com"
    = Some u /\
    @get_token Sample.production Sample.crypt 1500
      (CreateUserTokenRequest.mk "alice@x.com" (generate_otp Sample.env))
      [Sample.row (Some "$2b$5678") None (Some 1400) true]
    = (Return (token_response Sample.production 1500 u),
       User.commit_row (User.id u) (User.assign_for_token None None (Some 1500))
         [Sample.row (Some "$2b$5678") None (Some 1400) true]).
Proof.
  apply (otp_request_then_login Sample.production Sample.crypt 1400 1500 Sample.env
           "alice@x.com" [Sample.pending]
           [Sample.row (Some "$2b$5678") None (Some 1400) true]
           [("detail", JStr "OTP sent to email")]).
  - exact sample_crypt_verifies_own_hash.
  - apply sample_primary_key.
  - reflexivity.
  - cbn. lia.
Defined.

(** X15.  Asking for an OTP ends the session of the user: when the
    request for an email that has a row is answered 201, that row holds
    the hash of the new code and the time of the request, its
    [last_login_at] is null, and the guard rejects every token whose
    subject is that user with an HTTP 401. *)
Theorem otp_request_ends_session (settings : Settings) (txt_context : CryptContext)
    (now : Z) (env : Env) (e : string) (s s' : Session) (u : User.t)
    (content : list (string * JSONValue)) :
  User.read_by_email s e = Some u ->
  register_or_login_user settings now env e s = (Return (JSONResponse 201 content), s') ->
  (exists u',
      User.read s' (User.id u) = Some u' /\
      User.hashed_otp u' = Some (hash_text (salt env) (generate_otp env)) /\
      User.otp_created_at u' = Some now /\
      User.last_login_at u' = None) /\
  (forall now2 tok, AuthJWT.sub tok = User.id u ->
     exists detail,
       protected_route now2 (AuthJWT.bearer tok) s'
       = (Raise (HTTPException 401 detail), s')).
Proof.
  intros Hr H.
  destruct (register_or_login_user_201 settings txt_context _ _ _ _ _ _ H)
    as (base & u1 & Hc & Hin & ->).
  unfold CreateUser.execute in Hc. rewrite Hr in Hc.
  assert (Hb : base = s) by congruence.
  assert (Hm : UserSchema.model_validate u1 = UserSchema.model_validate u) by congruence.
  subst base. clear Hc.
  assert (Hid : User.id u1 = User.id u).
  { change (UserSchema.id (UserSchema.model_validate u1)
            = UserSchema.id (UserSchema.model_validate u)). now rewrite Hm. }
  rewrite Hid.
  destruct (read_in s u) as [u0 [Hu0 _]]; [now apply read_by_email_some in Hr|].
  assert (Hread : User.read (User.commit_row (User.id u) (otp_stored now env) s) (User.id u)
                  = Some (otp_stored now env u0)).
  { rewrite read_commit_row by (intros; apply assign_for_token_id). now rewrite Hu0. }
  split.
  - exists (otp_stored now env u0). split; [exact Hread|]. repeat split.
  - intros now2 tok Hsub.
    destruct (protected_route_rejects_401 now2 (AuthJWT.bearer tok)
                (User.commit_row (User.id u) (otp_stored now env) s))
      as [[uid Hp]|[d Hp]]; [exfalso | now exists d].
    destruct (protected_route_return _ _ _ _ _ Hp)
      as (tok' & u2 & Heq & _ & _ & Hr2 & _ & Hl & _).
    injection Heq as <-. rewrite Hsub, Hread in Hr2. injection Hr2 as <-.
    now apply Hl.
Qed.

Lemma otp_request_ends_session_witness :
  (exists u',
      User.read [Sample.row (Some "$2b$5678") None (Some 2000) true] "7c9e6679" = Some u' /\
      User.hashed_otp u' = Some "$2b$5678" /\
      User.otp_created_at u' = Some 2000 /\
      User.last_login_at u' = None) /\
  (forall now2 tok, AuthJWT.sub tok = "7c9e6679" ->
     exists detail,
       protected_route now2 (AuthJWT.bearer tok)
         [Sample.row (Some "$2b$5678") None (Some 2000) true]
       = (Raise (HTTPException 401 detail),
          [Sample.row (Some "$2b$5678") None (Some 2000) true])).
Proof.
  apply (otp_request_ends_session Sample.production Sample.crypt 2000 Sample.env
           "alice@x.com" [Sample.logged_in]
           [Sample.row (Some "$2b$5678") None (Some 2000) true] Sample.logged_in
           [("detail", JStr "OTP sent to email")]).
  - reflexivity.
  - reflexivity.
Defined.

(** X16.  Outside debug mode, when the mail cannot be queued the request
    is answered 503 "Could not sent email." and no OTP is stored: the
    table is the one [CreateUser.execute] left, so unchanged for an email
    that had a row. *)
Theorem otp_request_mail_failure (settings : Settings) (txt_context : CryptContext)
    (now : Z) (env : Env) (e : string) (s : Session) (u : User.t) :
  DEBUG_MODE settings = false ->
  mail_ok env = false ->
  User.read_by_email s e = Some u ->
  register_or_login_user settings now env e s
  = (Raise (HTTPException 503 "Could not sent email."), s).
Proof.
  intros Hd Hm Hr.
  rewrite (register_or_login_user_row settings now env e s s u).
  - cbv zeta. now rewrite Hd, Hm.
  - unfold CreateUser.execute. now rewrite Hr.
  - now apply read_by_email_some in Hr.
Qed.

Lemma otp_request_mail_failure_witness :
  @register_or_login_user Sample.production Sample.crypt 2000
    (mkEnv "0b5f9d2e" 4821 None (fun i => Z.of_nat i + 4) "salt" false)
    "alice@x.com" [Sample.logged_in]
  = (Raise (HTTPException 503 "Could not sent email."), [Sample.logged_in]).
Proof.
  apply (otp_request_mail_failure Sample.production Sample.crypt 2000
           (mkEnv "0b5f9d2e" 4821 None (fun i => Z.of_nat i + 4) "salt" false)
           "alice@x.com" [Sample.logged_in] Sample.logged_in); reflexivity.
Defined.

(** X17.  Registration by first request: for an email no row carries,
    when the insert succeeds and the mail can be queued (or debug mode is
    on), the request is answered 201 and the table is the old one followed
    by one new row.  That row has the drawn uuid as id, the email, role 1,
    is active, has no age, holds the hash of the code and the time of the
    request, and is not logged in; its username is the part of the email
    before the [@], with the drawn number appended when that name is
    taken. *)
Theorem registration_creates_row (settings : Settings) (txt_context : CryptContext)
    (now : Z) (env : Env) (e : string) (s base : Session) (u : User.t) :
  User.read_by_email s e = None ->
  User.create s e (Some 1) (uuid4 env) (random_number env) (err_cause env)
  = (Return u, base) ->
  DEBUG_MODE settings = true \/ mail_ok env = true ->
  register_or_login_user settings now env e s
  = (Return (JSONResponse 201
               (("detail", JStr "OTP sent to email")
                :: (if DEBUG_MODE settings then [("otp", JStr (generate_otp env))] else []))),
     (s ++ [User.mk (uuid4 env)
              (if existsb (fun v => (User.username v =? split_at_0 e)%string) s
               then split_at_0 e ++ str_of_int (random_number env)
               else split_at_0 e)
              e (Some (hash_text (salt env) (generate_otp env))) (Some 1) None (Some now)
              true None])%list).
Proof.
  intros Hr Hc Hmail.
  pose proof (create_return _ _ _ _ _ _ _ _ Hc) as (-> & _ & _ & _ & _ & _ & _ & _ & _ & Hni & _).
  assert (Hu : u = User.mk (uuid4 env)
                     (if existsb (fun v => (User.username v =? split_at_0 e)%string) s
                      then split_at_0 e ++ str_of_int (random_number env)
                      else split_at_0 e)
                     e None (Some 1) None None true None).
  { unfold User.create in Hc.
    destruct (existsb (fun v => _ || _ || _) s); [discriminate|]. congruence. }
  rewrite (register_or_login_user_row settings now env e s (s ++ [u])%list u).
  - cbv zeta.
    rewrite (commit_row_snoc s u _ Hni).
    assert (Hl : User.last_login_at u = None) by (rewrite Hu; reflexivity).
    assert (Ho : User.otp_created_at u = None) by (rewrite Hu; reflexivity).
    rewrite Hl, Ho. cbn [already_logged_in].
    assert (Hrow : otp_stored now env u
                   = User.mk (uuid4 env)
                       (if existsb (fun v => (User.username v =? split_at_0 e)%string) s
                        then split_at_0 e ++ str_of_int (random_number env)
                        else split_at_0 e)
                       e (Some (hash_text (salt env) (generate_otp env))) (Some 1) None
                       (Some now) true None) by (rewrite Hu; reflexivity).
    rewrite Hrow.
    destruct (DEBUG_MODE settings); [reflexivity|].
    destruct Hmail as [Hd|Hm]; [discriminate|]. now rewrite Hm.
  - unfold CreateUser.execute. now rewrite Hr, Hc.
  - apply in_or_app. right. now left.
Qed.

Lemma registration_creates_row_witness :
  @register_or_login_user Sample.production Sample.crypt 1000 Sample.env "alice@y.org"
    [Sample.logged_out]
  = (Return (JSONResponse 201 [("detail", JStr "OTP sent to email")]),
     [Sample.logged_out;
      User.mk "0b5f9d2e" "alice4821" "alice@y.org" (Some "$2b$5678") (Some 1) None
        (Some 1000) true None]).
Proof.
  apply (registration_creates_row Sample.production Sample.crypt 1000 Sample.env
           "alice@y.org" [Sample.logged_out]
           [Sample.logged_out;
            User.mk "0b5f9d2e" "alice4821" "alice@y.org" None (Some 1) None None true None]
           (User.mk "0b5f9d2e" "alice4821" "alice@y.org" None (Some 1) None None true None)).
  - reflexivity.
  - reflexivity.
  - right. reflexivity.
Defined.

(** X18.  The request for an OTP keeps the uniqueness constraints of the
    table: when ids, usernames and emails are each unique before the
    request, they are after it, whether it created a row or not and
    whatever it answered. *)
Theorem register_keeps_unique_columns (settings : Settings) (txt_context : CryptContext)
    (now : Z) (env : Env) (e : string) (s : Session) :
  unique_columns s ->
  unique_columns (snd (register_or_login_user settings now env e s)).
Proof.
  intros Hu.
  destruct (register_or_login_user_store settings txt_context now env e s)
    as (base & Hb & Hmap).
  apply (unique_columns_identity base); [now symmetry|].
  destruct (CreateUser.execute e (uuid4 env) (random_number env) (err_cause env) s)
    as [[us|x] base'] eqn:Hc; cbn in Hb; subst base'.
  - destruct (create_user_execute_row e env s base us Hc) as (_ & _ & _ & _ & H & _).
    now apply H.
  - destruct (create_user_execute_cases e env s)
      as [(u & _ & Hc')|[(u & _ & _ & Hc')|(x' & _ & Hc')]]; rewrite Hc' in Hc;
      try discriminate.
    now injection Hc as _ <-.
Qed.

Lemma register_keeps_unique_columns_witness :
  unique_columns
    (snd (@register_or_login_user Sample.production Sample.crypt 1000 Sample.env
            "alice@y.org" [Sample.logged_out])).
Proof.
  apply (register_keeps_unique_columns Sample.production Sample.crypt 1000 Sample.env
           "alice@y.org" [Sample.logged_out]).
  unfold unique_columns. cbn.
  repeat split; (constructor; [intros [] | constructor]).
Defined.

(** A drawn digit prints as one character from 1 to 9. *)
Lemma otp_digit (d : Z) :
  0 <= d < 9 -> exists c, In c otp_digits /\ str_of_int (d + 1) = String c "".
Proof.
  intros Hd.
  assert (H : d = 0 \/ d = 1 \/ d = 2 \/ d = 3 \/ d = 4 \/ d = 5 \/ d = 6 \/ d = 7 \/ d = 8)
    by lia.
  unfold otp_digits.
  repeat (destruct H as [->|H]; [eexists; split; [|reflexivity]; cbn; tauto|]).
  subst d. eexists; split; [|reflexivity]; cbn; tauto.
Qed.

(** X19.  When every draw of [secrets.randbelow(9)] is in [0, 9), the
    generated OTP has exactly four characters, each a digit from 1 to 9:
    a zero never occurs. *)
Theorem generate_otp_digits (env : Env) :
  (forall i, (i < 4)%nat -> 0 <= randbelow env i < 9) ->
  String.length (generate_otp env) = 4%nat /\
  Forall (fun c => In c otp_digits) (list_ascii_of_string (generate_otp env)).
Proof.
  intros H. unfold generate_otp. cbn [seq map].
  destruct (otp_digit _ (H 0%nat ltac:(lia))) as (c0 & H0 & ->).
  destruct (otp_digit _ (H 1%nat ltac:(lia))) as (c1 & H1 & ->).
  destruct (otp_digit _ (H 2%nat ltac:(lia))) as (c2 & H2 & ->).
  destruct (otp_digit _ (H 3%nat ltac:(lia))) as (c3 & H3 & ->).
  cbn [String.concat String.append list_ascii_of_string String.length].
  split; [reflexivity|].
  repeat (apply Forall_cons; [assumption|]). apply Forall_nil.
Qed.

Lemma generate_otp_digits_witness :
  String.length (generate_otp Sample.env) = 4%nat /\
  Forall (fun c => In c otp_digits) (list_ascii_of_string (generate_otp Sample.env)).
Proof.
  apply (generate_otp_digits Sample.env).
  intros i Hi. cbn. lia.
Defined.

(** ** Role-gated routes (app/controllers/dependencies.py) *)

Lemma filter_nil_forall (A : Type) (p : A -> bool) (l : list A) :
  (forall x, In x l -> p x = false) -> filter p l = [].
Proof.
  induction l as [|h t IH]; cbn; intros H; [reflexivity|].
  rewrite (H h) by now left. apply IH. intros x Hx. apply H. now right.
Qed.

(** Under the primary key, the rows of one id are the row [read] finds. *)
Lemma filter_by_id (s : Session) (uid : string) (u : User.t) (q : User.t -> bool) :
  primary_key s ->
  User.read s uid = Some u ->
  filter (fun v => q v && (User.id v =? uid)%string) s = if q u then [u] else [].
Proof.
  unfold primary_key, User.read.
  induction s as [|h t IH]; cbn; intros Hnd Hr; [discriminate|].
  inversion Hnd as [|? ? Hnotin Hnd']; subst.
  destruct (User.id h =? uid)%string eqn:Hid.
  - injection Hr as ->. apply String.eqb_eq in Hid.
    assert (Ht : filter (fun v => q v && (User.id v =? uid)%string) t = []).
    { apply filter_nil_forall. intros x Hx.
      destruct (User.id x =? uid)%string eqn:Hx'; [|apply andb_false_r].
      exfalso. apply String.eqb_eq in Hx'. apply Hnotin. rewrite Hid, <- Hx'.
      now apply in_map. }
    rewrite Ht, andb_true_r. destruct (q u); reflexivity.
  - rewrite andb_false_r. now apply IH.
Qed.

Lemma flat_map_none (A B : Type) (f : A -> list B) (l : list A) :
  (forall x, In x l -> f x = []) -> flat_map f l = [].
Proof.
  induction l as [|h t IH]; cbn; intros H; [reflexivity|].
  rewrite (H h) by now left. apply IH. intros x Hx. apply H. now right.
Qed.

(** With unique role ids, the roles of one id are the role [read] finds. *)
Lemma roles_by_id (roles : list Role.t) (u : User.t) (role_id : Z) :
  NoDup (map Role.id roles) ->
  User.role_id u = Some role_id ->
  flat_map (fun r => map (fun _ : User.t => r) (if Role.has_role r u then [u] else [])) roles
  = match Role.read roles role_id with
    | Some r => [r]
    | None => []
    end.
Proof.
  intros Hnd Hrid. unfold Role.read, Role.has_role. rewrite Hrid.
  induction roles as [|h t IH]; cbn; [reflexivity|].
  inversion Hnd as [|? ? Hnotin Hnd']; subst.
  rewrite (Z.eqb_sym role_id (Role.id h)).
  destruct (Role.id h =? role_id) eqn:Hid; cbn.
  - apply Z.eqb_eq in Hid.
    assert (Ht : flat_map
                   (fun r => map (fun _ : User.t => r)
                               (if role_id =? Role.id r then [u] else [])) t = []).
    { apply flat_map_none. intros r Hin.
      destruct (role_id =? Role.id r) eqn:E; [|reflexivity].
      exfalso. apply Z.eqb_eq in E. apply Hnotin. rewrite Hid, E. now apply in_map. }
    now rewrite Ht.
  - now apply IH.
Qed.

Lemma read_user_roles_unique (roles : list Role.t) (s : Session) (uid : string)
    (u : User.t) :
  primary_key s ->
  NoDup (map Role.id roles) ->
  User.read s uid = Some u ->
  ReadRole.execute roles uid s = scalar (role_of roles u).
Proof.
  intros Hpk Hnd Hr.
  unfold ReadRole.execute, Role.read_user_roles, role_of.
  assert (E : flat_map
                (fun r => map (fun _ : User.t => r)
                   (filter (fun v => Role.has_role r v && (User.id v =? uid)%string) s)) roles
              = flat_map
                  (fun r => map (fun _ : User.t => r)
                              (if Role.has_role r u then [u] else [])) roles).
  { apply flat_map_ext. intros r. now rewrite (filter_by_id s uid u _ Hpk Hr). }
  rewrite E. clear E.
  destruct (User.role_id u) as [rid|] eqn:Hrid.
  - rewrite (roles_by_id roles u rid Hnd Hrid).
    destruct (Role.read roles rid); reflexivity.
  - assert (E : flat_map
                  (fun r => map (fun _ : User.t => r)
                              (if Role.has_role r u then [u] else [])) roles = []).
    { unfold Role.has_role. rewrite Hrid. clear. induction roles; cbn; auto. }
    now rewrite E.
Qed.

(** X20.  The guard comes first in a role-gated route: the call never
    writes to the table, and when the guard rejects the request the
    answer is the 401 of the guard, never the 403 of the role check. *)
Theorem role_checker_guard_first (allowed_roles : list (option Z)) (roles : list Role.t)
    (now : Z) (authorize : AuthJWT.t) (s : Session) :
  snd (RoleChecker.call allowed_roles roles now authorize s) = s /\
  ((exists uid, protected_route now authorize s = (Return uid, s)) \/
   (exists detail,
       protected_route now authorize s = (Raise (HTTPException 401 detail), s) /\
       RoleChecker.call allowed_roles roles now authorize s
       = (RoleChecker.answered (Raise (HTTPException 401 detail)), s))).
Proof.
  unfold RoleChecker.call.
  destruct (protected_route_rejects_401 now authorize s) as [[uid H]|[d H]]; rewrite H.
  - split; [|left; now exists uid].
    destruct (ReadRole.execute roles uid s) as [role|]; [|reflexivity].
    destruct (negb (RoleChecker.role_in role allowed_roles)); reflexivity.
  - split; [reflexivity|]. right. exists d. split; reflexivity.
Qed.

(** X21.  For a request the guard accepts, with unique user ids and
    unique role ids, the role check never meets several rows; it returns
    the user id when the role of the user (the role its [role_id] names,
    if the roles table has it, else none) is among the allowed ones, and
    raises 403 "Operation not permitted" otherwise. *)
Theorem role_checker_decides_by_role (allowed_roles : list (option Z))
    (roles : list Role.t) (now : Z) (authorize : AuthJWT.t) (s : Session)
    (uid : string) (u : User.t) :
  primary_key s ->
  NoDup (map Role.id roles) ->
  protected_route now authorize s = (Return uid, s) ->
  User.read s uid = Some u ->
  RoleChecker.call allowed_roles roles now authorize s
  = (RoleChecker.answered
       (if RoleChecker.role_in (role_of roles u) allowed_roles
        then Return uid
        else Raise (HTTPException 403 "Operation not permitted")), s).
Proof.
  intros Hpk Hnd Hp Hr. unfold RoleChecker.call. rewrite Hp.
  rewrite (read_user_roles_unique roles s uid u Hpk Hnd Hr).
  destruct (RoleChecker.role_in (role_of roles u) allowed_roles); reflexivity.
Qed.

Lemma role_checker_decides_by_role_witness :
  let roles := [Role.mk 1 (Some "member") true; Role.mk 2 (Some "admin") true] in
  RoleChecker.call [Some 2] roles 2000 (AuthJWT.bearer Sample.access_token)
    [Sample.logged_in]
  = (RoleChecker.answered (Raise (HTTPException 403 "Operation not permitted")),
     [Sample.logged_in]) /\
  RoleChecker.call [Some 1; Some 2] roles 2000 (AuthJWT.bearer Sample.access_token)
    [Sample.logged_in]
  = (RoleChecker.answered (Return "7c9e6679"), [Sample.logged_in]).
Proof.
  cbv zeta. split.
  - apply (role_checker_decides_by_role [Some 2]
             [Role.mk 1 (Some "member") true; Role.mk 2 (Some "admin") true]
             2000 (AuthJWT.bearer Sample.access_token) [Sample.logged_in]
             "7c9e6679" Sample.logged_in).
    + apply sample_primary_key.
    + cbn. repeat constructor; cbn; intuition discriminate.
    + reflexivity.
    + reflexivity.
  - apply (role_checker_decides_by_role [Some 1; Some 2]
             [Role.mk 1 (Some "member") true; Role.mk 2 (Some "admin") true]
             2000 (AuthJWT.bearer Sample.access_token) [Sample.logged_in]
             "7c9e6679" Sample.logged_in).
    + apply sample_primary_key.
    + cbn. repeat constructor; cbn; intuition discriminate.
    + reflexivity.
    + reflexivity.
Defined.

(** ** Generic CRUD (app/crud/base.py) *)

Lemma find_none_forall (A : Type) (p : A -> bool) (l : list A) :
  (forall x, In x l -> p x = false) -> find p l = None.
Proof.
  induction l as [|h t IH]; cbn; intros H; [reflexivity|].
  rewrite (H h) by now left. apply IH. intros x Hx. apply H. now right.
Qed.

Section CRUD.

Variable T : Type.
Variable id : T -> Z.
Variable is_active : T -> bool.
Variable constraints : list T -> bool.

(** X22.  The generic read returns only a row of the table that has the
    requested id and is active; and it returns [None] only when no active
    row has that id: soft-deleted rows are not found. *)
Theorem crud_read_active_only (session : list T) (_id : Z) :
  match BaseCRUDMixin.read T id is_active session _id with
  | Some r => In r session /\ id r = _id /\ is_active r = true
  | None => forall r, In r session -> id r = _id -> is_active r = false
  end.
Proof.
  unfold BaseCRUDMixin.read.
  destruct (find _ session) as [r|] eqn:F.
  - apply find_some in F. destruct F as [Hin Hp].
    apply andb_true_iff in Hp. destruct Hp as [Hid Ha].
    apply Z.eqb_eq in Hid. auto.
  - intros r Hin Hid. pose proof (find_none _ _ F r Hin) as Hp. cbn in Hp.
    rewrite Hid, Z.eqb_refl in Hp. exact Hp.
Qed.

(** X23.  Soft delete: after an update of the id that clears
    [is_active] and commits, the generic read of that id finds nothing
    and [read_all] lists no row of that id. *)
Theorem crud_soft_delete (session session' : list T) (_id : Z) (values : T -> T) :
  (forall r, is_active (values r) = false) ->
  BaseCRUDMixin.update T id constraints session _id values = (Return tt, session') ->
  BaseCRUDMixin.read T id is_active session' _id = None /\
  (forall r, In r (BaseCRUDMixin.read_all T is_active session') -> id r <> _id).
Proof.
  intros Hv H. unfold BaseCRUDMixin.update in H.
  destruct (constraints _); [|discriminate]. injection H as <-.
  assert (Hrows : forall r, In r (map (fun r => if id r =? _id then values r else r) session) ->
                            id r = _id -> is_active r = false).
  { intros r Hin Hid. apply in_map_iff in Hin. destruct Hin as (r0 & Hr0 & _).
    destruct (id r0 =? _id) eqn:E.
    - subst r. apply Hv.
    - subst r. apply Z.eqb_neq in E. contradiction. }
  split.
  - unfold BaseCRUDMixin.read. apply find_none_forall. intros r Hin.
    destruct (id r =? _id) eqn:E; [|reflexivity].
    apply Z.eqb_eq in E. cbn. now apply Hrows.
  - intros r Hin Hid. unfold BaseCRUDMixin.read_all in Hin.
    apply filter_In in Hin. destruct Hin as [Hin Ha].
    rewrite (Hrows r Hin Hid) in Ha. discriminate.
Qed.

(** X24.  Delete: after a delete that commits, the generic read of that
    id finds nothing and the read of any other id finds what it found
    before; a delete that breaks a constraint raises and leaves the table
    as it was. *)
Theorem crud_delete (session : list T) (_id : Z) :
  match BaseCRUDMixin.delete T id constraints session _id with
  | (Return _, session') =>
      BaseCRUDMixin.read T id is_active session' _id = None /\
      (forall other, other <> _id ->
         BaseCRUDMixin.read T id is_active session' other
         = BaseCRUDMixin.read T id is_active session other)
  | (Raise e, session') =>
      e = CouldNotPerformDBOperationException "(User Deletion Failed)" /\ session' = session
  end.
Proof.
  unfold BaseCRUDMixin.delete.
  destruct (constraints _); [|split; reflexivity].
  split.
  - unfold BaseCRUDMixin.read. apply find_none_forall. intros r Hin.
    apply filter_In in Hin. destruct Hin as [_ Hne].
    destruct (id r =? _id); [discriminate | reflexivity].
  - intros other Hother. unfold BaseCRUDMixin.read.
    induction session as [|h t IH]; cbn; [reflexivity|].
    destruct (id h =? _id) eqn:E; cbn.
    + apply Z.eqb_eq in E.
      destruct (id h =? other) eqn:E'; [apply Z.eqb_eq in E'; congruence|].
      cbn. exact IH.
    + destruct ((id h =? other) && is_active h); [reflexivity | exact IH].
Qed.

End CRUD.

Lemma crud_soft_delete_witness :
  let roles := [Role.mk 1 (Some "member") true; Role.mk 2 (Some "admin") true] in
  let roles' := [Role.mk 1 (Some "member") true; Role.mk 2 (Some "admin") false] in
  BaseCRUDMixin.read Role.t Role.id Role.is_active roles' 2 = None /\
  (forall r, In r (BaseCRUDMixin.read_all Role.t Role.is_active roles') -> Role.id r <> 2).
Proof.
  cbv zeta.
  apply (crud_soft_delete Role.t Role.id Role.is_active (fun _ => true)
           [Role.mk 1 (Some "member") true; Role.mk 2 (Some "admin") true]
           [Role.mk 1 (Some "member") true; Role.mk 2 (Some "admin") false]
           2 (fun r => Role.mk (Role.id r) (Role.name r) false)).
  - reflexivity.
  - reflexivity.
Defined.

(** ** Profiles (app/api/v1/user/operations.py, app/api/v1/user/routes.py) *)

Lemma assign_auth_columns (p : UserProfileUpdateRequest.t) (r : UserProfile.row) :
  auth_columns (fst (UserProfile.assign p r)) = auth_columns (fst r).
Proof. destruct r as [u c]. reflexivity. Qed.

Lemma profile_commit_row_auth_columns (table : list UserProfile.row) (_id : string)
    (p : UserProfileUpdateRequest.t) :
  map auth_columns
    (UserProfile.auth_session (UserProfile.commit_row _id (UserProfile.assign p) table))
  = map auth_columns (UserProfile.auth_session table).
Proof.
  unfold UserProfile.auth_session.
  induction table as [|h t IH]; cbn; [reflexivity|].
  destruct (User.id (fst h) =? _id)%string; cbn.
  - now rewrite assign_auth_columns.
  - now rewrite IH.
Qed.

(** The lookup of the guard sees the same columns in two tables that
    agree on them. *)
Lemma read_for_auth_auth_columns (s s' : Session) (_id : string) :
  map auth_columns s = map auth_columns s' ->
  option_map auth_columns (User.read_for_auth s _id)
  = option_map auth_columns (User.read_for_auth s' _id).
Proof.
  unfold User.read_for_auth.
  revert s'. induction s as [|h t IH]; destruct s' as [|h' t']; cbn [map find];
    try discriminate; [reflexivity|].
  intros H.
  assert (Hh : auth_columns h = auth_columns h') by congruence.
  assert (Ht : map auth_columns t = map auth_columns t') by congruence.
  assert (Hid : User.id h = User.id h') by (unfold auth_columns in Hh; congruence).
  rewrite <- Hid.
  destruct (User.id h =? _id)%string; [cbn [option_map]; now rewrite Hh | now apply IH].
Qed.

(** The answer of the guard depends on the table through those columns
    only. *)
Lemma protected_route_auth_columns (now : Z) (authorize : AuthJWT.t) (s s' : Session) :
  map auth_columns s = map auth_columns s' ->
  fst (protected_route now authorize s) = fst (protected_route now authorize s').
Proof.
  intros H.
  destruct authorize as [|m|m|tok].
  - reflexivity.
  - unfold_guard. cbn. destruct (m =? "Signature has expired")%string; reflexivity.
  - reflexivity.
  - destruct (AuthJWT.exp tok <=? now) eqn:Hexp.
    + unfold_guard. rewrite Hexp. reflexivity.
    + destruct (AuthJWT.type tok) eqn:Hty.
      * apply Z.leb_gt in Hexp.
        rewrite !protected_route_bearer by assumption.
        pose proof (read_for_auth_auth_columns s s' (AuthJWT.sub tok) H) as E.
        destruct (User.read_for_auth s (AuthJWT.sub tok)) as [u|],
                 (User.read_for_auth s' (AuthJWT.sub tok)) as [u'|];
          cbn [option_map] in E; try discriminate; [|reflexivity].
        assert (Hid : User.id u = User.id u') by (unfold auth_columns in E; congruence).
        assert (Hl : User.last_login_at u = User.last_login_at u')
          by (unfold auth_columns in E; congruence).
        assert (Ha : User.is_active u = User.is_active u')
          by (unfold auth_columns in E; congruence).
        rewrite Ha, Hl, Hid.
        destruct (User.is_active u'); cbn; [|reflexivity].
        destruct (User.last_login_at u'); reflexivity.
      * unfold_guard. rewrite Hexp, Hty. reflexivity.
Qed.

(** The table after a profile route: as it was, or one row assigned. *)
Lemma profile_routes_store (now : Z) (authorize : AuthJWT.t)
    (p : UserProfileRequest.t) (q : UserProfileUpdateRequest.t)
    (table : list UserProfile.row) :
  map auth_columns (UserProfile.auth_session (snd (add_user_profile now authorize p table)))
  = map auth_columns (UserProfile.auth_session table) /\
  map auth_columns (UserProfile.auth_session (snd (update_user_profile now authorize q table)))
  = map auth_columns (UserProfile.auth_session table).
Proof.
  unfold add_user_profile, update_user_profile, CreateUpdateUserProfile.execute.
  destruct (protected_route now authorize (UserProfile.auth_session table)) as [[uid|e] s'].
  - destruct (UserProfile.read table uid) as [r|]; cbn; [|split; reflexivity].
    split; apply profile_commit_row_auth_columns.
  - split; reflexivity.
Qed.

(** X25.  Adding or updating a profile never touches what the
    authentication core reads: the id, username, email, OTP columns, role,
    [last_login_at] and [is_active] of every row are as before, no row is
    added or removed, and so the guard gives every request the answer it
    gave before. *)
Theorem profile_routes_keep_auth_columns (now now2 : Z) (authorize authorize2 : AuthJWT.t)
    (p : UserProfileRequest.t) (q : UserProfileUpdateRequest.t)
    (table : list UserProfile.row) :
  let added := snd (add_user_profile now authorize p table) in
  let updated := snd (update_user_profile now authorize q table) in
  map auth_columns (UserProfile.auth_session added)
  = map auth_columns (UserProfile.auth_session table) /\
  map auth_columns (UserProfile.auth_session updated)
  = map auth_columns (UserProfile.auth_session table) /\
  fst (protected_route now2 authorize2 (UserProfile.auth_session added))
  = fst (protected_route now2 authorize2 (UserProfile.auth_session table)) /\
  fst (protected_route now2 authorize2 (UserProfile.auth_session updated))
  = fst (protected_route now2 authorize2 (UserProfile.auth_session table)).
Proof.
  cbv zeta.
  destruct (profile_routes_store now authorize p q table) as [Ha Hu].
  repeat split; try assumption; now apply protected_route_auth_columns.
Qed.

Lemma profile_read_view (table : list UserProfile.row) (_id : string) :
  User.read (UserProfile.auth_session table) _id
  = option_map fst (UserProfile.read table _id).
Proof.
  unfold User.read, UserProfile.read, UserProfile.auth_session.
  induction table as [|h t IH]; cbn; [reflexivity|].
  destruct (User.id (fst h) =? _id)%string; [reflexivity | exact IH].
Qed.

Lemma assign_id (p : UserProfileUpdateRequest.t) (r : UserProfile.row) :
  User.id (fst (UserProfile.assign p r)) = User.id (fst r).
Proof. destruct r as [u c]. reflexivity. Qed.

Lemma profile_read_commit_row (table : list UserProfile.row) (_id : string)
    (p : UserProfileUpdateRequest.t) :
  UserProfile.read (UserProfile.commit_row _id (UserProfile.assign p) table) _id
  = option_map (UserProfile.assign p) (UserProfile.read table _id).
Proof.
  unfold UserProfile.read.
  induction table as [|h t IH]; cbn; [reflexivity|].
  destruct (User.id (fst h) =? _id)%string eqn:E; cbn.
  - now rewrite assign_id, E.
  - now rewrite E.
Qed.





Lemma auth_columns_ids (s s' : Session) :
  map auth_columns s = map auth_columns s' -> map User.id s = map User.id s'.
Proof.
  revert s'. induction s as [|h t IH]; destruct s' as [|h' t']; cbn [map];
    try discriminate; [reflexivity|].
  intros H.
  assert (Hh : auth_columns h = auth_columns h') by congruence.
  assert (Ht : map auth_columns t = map auth_columns t') by congruence.
  f_equal; [unfold auth_columns in Hh; congruence | now apply IH].
Qed.

Lemma read_in_unique (s : Session) (u : User.t) :
  primary_key s -> In u s -> User.read s (User.id u) = Some u.
Proof.
  unfold primary_key, User.read.
  induction s as [|h t IH]; cbn; intros Hnd Hin; [contradiction|].
  inversion Hnd as [|? ? Hnotin Hnd']; subst.
  destruct Hin as [->|Hin].
  - now rewrite String.eqb_refl.
  - destruct (User.id h =? User.id u)%string eqn:E; [|now apply IH].
    exfalso. apply String.eqb_eq in E. apply Hnotin. rewrite E. now apply in_map.
Qed.

Lemma in_map_eq (A B : Type) (f : A -> B) (l l' : list A) (x : A) :
  map f l = map f l' -> In x l -> exists y, In y l' /\ f y = f x.
Proof.
  intros H Hin. apply (in_map f) in Hin. rewrite H in Hin.
  apply in_map_iff in Hin. destruct Hin as (y & Hy & Hin). now exists y.
Qed.

(** X27.  Profile and login compose: after a profile was added with an
    age other than 0, a later login of the same user answers
    [is_new_user = false].  The login may come after any requests that
    keep id and age of the rows, as OTP requests, logins and logouts do;
    the same user is the one whose new access token carries the subject of
    the token that added the profile. *)
Theorem add_profile_then_login (settings : Settings) (txt_context : CryptContext)
    (now now2 : Z) (tok : AuthJWT.token) (p : UserProfileRequest.t)
    (table table' : list UserProfile.row) (msg : string)
    (payload : CreateUserTokenRequest.t) (s s2 : Session)
    (name : string) (at_ rt : AuthJWT.token) (new : bool) :
  primary_key (UserProfile.auth_session table) ->
  add_user_profile now (AuthJWT.bearer tok) p table = (Return msg, table') ->
  UserProfileRequest.age p <> 0 ->
  map identity_columns s = map identity_columns (UserProfile.auth_session table') ->
  get_token settings now2 payload s
  = (Return (CreateUserTokenResponse name at_ rt new), s2) ->
  AuthJWT.sub at_ = AuthJWT.sub tok ->
  get_token settings now2 payload s
  = (Return (CreateUserTokenResponse name at_ rt false), s2).
Proof.
  intros Hpk Hadd Hage Hsame Hlogin Hsub.
  enough (Hfalse : new = false) by (now rewrite <- Hfalse).
  (* the profile request *)
  unfold add_user_profile in Hadd.
  destruct (protected_route_rejects_401 now (AuthJWT.bearer tok)
              (UserProfile.auth_session table)) as [[uid Hp]|[d Hp]];
    rewrite Hp in Hadd; [|discriminate].
  destruct (protected_route_return _ _ _ _ _ Hp)
    as (tok' & u & Heq & _ & _ & Hr & _ & _ & -> & Hid & _).
  injection Heq as <-.
  rewrite <- Hid in Hr. rewrite profile_read_view in Hr.
  unfold CreateUpdateUserProfile.execute in Hadd.
  destruct (UserProfile.read table (User.id u)) as [r|] eqn:Hread; [|discriminate].
  cbn in Hr. injection Hr as Hfst.
  assert (Ht' : table' = UserProfile.commit_row (User.id u)
                           (UserProfile.assign (UserProfileRequest.attributes p)) table).
  { rewrite Hfst in Hadd. congruence. }
  subst table'. clear Hadd.
  (* the login *)
  destruct (get_token_response_inv settings _ _ _ _ _ _ _ _ Hlogin)
    as (u0 & h & Hr0 & Hdbg & Hh & Hv).
  rewrite (get_token_matching_otp settings now2 payload _ u0 h Hr0 Hdbg Hh Hv) in Hlogin.
  unfold token_response in Hlogin.
  assert (Hat : at_ = AuthJWT.create_access_token now2 (User.id u0)
                        (timedelta_minutes (ACCESS_TOKEN_EXPIRES_IN settings)))
    by congruence.
  assert (Hnew : new = match User.age u0 with None => true | Some _ => false end)
    by congruence.
  rewrite Hat in Hsub. cbn in Hsub.
  (* the row of the login has the id and the age of the row of the profile *)
  destruct (in_map_eq _ _ identity_columns _ _ u0 Hsame) as (u1 & Hin1 & Hcols);
    [now apply read_by_email_some in Hr0|].
  assert (Hid1 : User.id u1 = User.id u) by (unfold identity_columns in Hcols; congruence).
  assert (Hage1 : User.age u0 = User.age u1)
    by (unfold identity_columns in Hcols; congruence).
  assert (Hpk' : primary_key
                   (UserProfile.auth_session
                      (UserProfile.commit_row (User.id u)
                         (UserProfile.assign (UserProfileRequest.attributes p)) table))).
  { unfold primary_key in *.
    rewrite (auth_columns_ids _ _ (profile_commit_row_auth_columns table (User.id u) _)).
    exact Hpk. }
  pose proof (read_in_unique _ _ Hpk' Hin1) as Hrow.
  rewrite Hid1, profile_read_view, profile_read_commit_row, Hread in Hrow.
  cbn in Hrow. injection Hrow as Hrow.
  rewrite Hnew, Hage1, <- Hrow. destruct r as [ur cr]. cbn.
  destruct (UserProfileRequest.age p =? 0) eqn:E; [|reflexivity].
  apply Z.eqb_eq in E. contradiction.
Qed.

Lemma add_profile_then_login_witness :
  @get_token Sample.production Sample.crypt 3000
    (CreateUserTokenRequest.mk "alice@x.com" "1234")
    [User.mk "7c9e6679" "alice" "alice@x.com" (Some "$2b$1234") (Some 1) None
       (Some 2900) true (Some 30)]
  = (Return (CreateUserTokenResponse "alice"
               (AuthJWT.mk AuthJWT.access "7c9e6679" 4800)
               (AuthJWT.mk AuthJWT.refresh "7c9e6679" 89400) false),
     [User.mk "7c9e6679" "alice" "alice@x.com" None (Some 1) (Some 3000) None true
        (Some 30)]).
Proof.
  apply (add_profile_then_login Sample.production Sample.crypt 2000 3000
           Sample.access_token
           (UserProfileRequest.mk "Alice" "555" 30 female 170%float 60%float)
           [(Sample.logged_in, UserProfile.mk None None None None None)]
           [(User.mk "7c9e6679" "alice" "alice@x.com" None (Some 1) (Some 1100) None true
               (Some 30),
             UserProfile.mk (Some "Alice") (Some "555") (Some "Female")
               (Some 170%float) (Some 60%float))]
           "Profile added"
           (CreateUserTokenRequest.mk "alice@x.com" "1234")
           [User.mk "7c9e6679" "alice" "alice@x.com" (Some "$2b$1234") (Some 1) None
              (Some 2900) true (Some 30)]
           [User.mk "7c9e6679" "alice" "alice@x.com" None (Some 1) (Some 3000) None true
              (Some 30)]
           "alice"
           (AuthJWT.mk AuthJWT.access "7c9e6679" 4800)
           (AuthJWT.mk AuthJWT.refresh "7c9e6679" 89400) false).
  - apply sample_primary_key.
  - reflexivity.
  - discriminate.
  - reflexivity.
  - reflexivity.
  - reflexivity.
Defined.

(** ** Creation of a row (app/models/users.py, [User.create]) *)

(** X28.  [User.create] and the unique columns.  When the drawn id, the
    email, or the username it settled on (the part before the [@], with
    the drawn number appended when that part is taken) belongs to an earlier
    row, [User.create] raises [CouldNotPerformDBOperationException] and
    leaves the table as it was: the number is drawn once, a second
    collision of the username is not retried.  When [User.create]
    returns, the table is the old one followed by exactly the returned
    row, which has that id, username and email, none of them carried by an
    earlier row, no OTP, no session, and is active. *)
Theorem create_and_unique_columns (s : Session) (e : string) (r : option Z)
    (uuid : string) (rnd : Z) (c : option string) :
  let username1 :=
    if existsb (fun v => (User.username v =? split_at_0 e)%string) s
    then split_at_0 e ++ str_of_int rnd else split_at_0 e in
  (In uuid (map User.id s) \/ In username1 (map User.username s)
   \/ In e (map User.email s) ->
   User.create s e r uuid rnd c
   = (Raise (CouldNotPerformDBOperationException (User.creation_failed_extra c)), s)) /\
  (forall u s', User.create s e r uuid rnd c = (Return u, s') ->
     s' = (s ++ [u])%list /\
     u = User.mk uuid username1 e None r None None true None /\
     ~ In uuid (map User.id s) /\
     ~ In username1 (map User.username s) /\
     ~ In e (map User.email s)).
Proof.
  cbv zeta. unfold User.create.
  set (username1 := if existsb _ s then _ else _).
  destruct (existsb (fun u => _ || _ || _) s) eqn:E.
  - split; [reflexivity | discriminate].
  - apply existsb_orb_false in E. destruct E as [E He].
    apply existsb_orb_false in E. destruct E as [Hi Hu].
    apply existsb_eqb_false in Hi, Hu, He.
    split.
    + intros [H|[H|H]]; contradiction.
    + intros u s' H. injection H as <- <-. repeat split; assumption.
Qed.

Lemma create_and_unique_columns_witness :
  User.create
    [Sample.logged_out;
     User.mk "5d1c" "alice4821" "alice@z.net" None (Some 1) None None true None]
    "alice@y.org" (Some 1) "0b5f9d2e" 4821 None
  = (Raise (CouldNotPerformDBOperationException (User.creation_failed_extra None)),
     [Sample.logged_out;
      User.mk "5d1c" "alice4821" "alice@z.net" None (Some 1) None None true None]) /\
  ([Sample.logged_out;
    User.mk "0b5f9d2e" "alice4821" "alice@y.org" None (Some 1) None None true None]
   = ([Sample.logged_out]
      ++ [User.mk "0b5f9d2e" "alice4821" "alice@y.org" None (Some 1) None None true None])%list
   /\ User.mk "0b5f9d2e" "alice4821" "alice@y.org" None (Some 1) None None true None
      = User.mk "0b5f9d2e" "alice4821" "alice@y.org" None (Some 1) None None true None
   /\ ~ In "0b5f9d2e" (map User.id [Sample.logged_out])
   /\ ~ In "alice4821" (map User.username [Sample.logged_out])
   /\ ~ In "alice@y.org" (map User.email [Sample.logged_out])).
Proof.
  split.
  - apply (proj1 (create_and_unique_columns
                    [Sample.logged_out;
                     User.mk "5d1c" "alice4821" "alice@z.net" None (Some 1) None None
                       true None]
                    "alice@y.org" (Some 1) "0b5f9d2e" 4821 None)).
    right. left. cbn. right. left. reflexivity.
  - apply (proj2 (create_and_unique_columns [Sample.logged_out] "alice@y.org" (Some 1)
                    "0b5f9d2e" 4821 None)).
    reflexivity.
Defined.
